(** * Fixture generators of rust-excel-parser: create_test_xlsx.py and test_data.py

    A shallow embedding of the two scripts.  Each script is a straight-line
    Python program whose only effects are imports, calls into a spreadsheet
    library, [print], and writes to the file system.  The scripts are
    embedded in a reader/state/exception monad [Py]; the three libraries
    (openpyxl, xlsxwriter, pandas) are modelled by the part of their
    documented behaviour the scripts use. *)

From Stdlib Require Import ZArith Ascii String PrimFloat Uint63 FloatOps SpecFloat.
From stdpp Require Import base option strings list gmap pretty.

Local Open Scope string_scope.
Local Open Scope list_scope.
Local Open Scope nat_scope.

Set Warnings "-inexact-float".

(** ** Python values and spreadsheet cells *)

(** The literals the scripts put into rows and columns. *)
Inductive pyval :=
  | PyStr (s : string)
  | PyInt (z : Z)
  | PyFloat (x : float).

(** A cell as stored in an .xlsx part: a string or a number.  The format
    has one numeric type (binary64), so 25 and 25.0 are the same cell. *)
Inductive cell :=
  | CStr (s : string)
  | CNum (x : float).

(** [float(z)], exact for the integers of the fixtures (below 2^53). *)
Definition float_of_Z (z : Z) : float :=
  match z with
  | Z0 => 0%float
  | Zpos p => PrimFloat.of_uint63 (Uint63.of_pos p)
  | Zneg p => PrimFloat.opp (PrimFloat.of_uint63 (Uint63.of_pos p))
  end.

Definition cell_of_pyval (v : pyval) : cell :=
  match v with
  | PyStr s => CStr s
  | PyInt z => CNum (float_of_Z z)
  | PyFloat x => CNum x
  end.

(** The logical content of a workbook file: its sheets in tab order, each a
    name and a grid of cells addressed by 1-based (row, column), the
    coordinates of an A1-style reference. *)
Record sheet := Sheet {
  sheet_name : string;
  sheet_cells : gmap (nat * nat) cell
}.

Definition workbook := list sheet.

(** What a file holds: text, or a workbook stamped with the time the
    library recorded in its document properties. *)
Inductive file :=
  | TextFile (content : string)
  | XlsxFile (stamp : Z) (book : workbook).

(** ** Exceptions *)

(** What a call into a library that did import, [open], [write] or [print]
    can fail with.  An ImportError is the failure of an import: it is raised
    by the import machinery ([import_] below) and by nothing else. *)
Inductive failure :=
  | OSError
  | PermissionError
  | UnicodeEncodeError
  | ValueError.

Inductive exn :=
  | ImportError (name : string)
  | ModuleNotFoundError (name : string)
  | Failure (f : failure).

(** [isinstance(e, ImportError)]: ModuleNotFoundError derives from
    ImportError. *)
Definition isinstance_ImportError (e : exn) : bool :=
  match e with
  | ImportError _ | ModuleNotFoundError _ => true
  | Failure _ => false
  end.

(** ** The world a script runs in *)

(** The calls a script makes outside its own code. *)
Inductive api :=
  | openpyxl_Workbook
  | openpyxl_active
  | openpyxl_set_title
  | openpyxl_append
  | openpyxl_create_sheet
  | openpyxl_save
  | xlsxwriter_Workbook
  | xlsxwriter_add_worksheet
  | xlsxwriter_write_row
  | xlsxwriter_close
  | pandas_DataFrame
  | pandas_ExcelWriter
  | pandas_to_excel
  | pandas_ExcelWriter_exit
  | builtin_print
  | builtin_open
  | file_write
  | file_close.

#[global] Instance api_eq_dec : EqDecision api.
Proof. solve_decision. Defined.

(** What a run cannot change: which modules import, which calls fail (the
    n-th call of the run, by name), the working directory, the command
    line, the environment variables and the clock. *)
Record Env := {
  importable : string → bool;
  fault : nat → api → option failure;
  cwd : string;
  argv : list string;
  environ : gmap string string;
  now : Z
}.

(** What a run leaves behind, in order. *)
Inductive event :=
  | Imported (module : string)
  | ImportFailed (module : string)
  | Called (a : api)
  | Raised (a : api) (f : failure)
  | Wrote (path : string).

Record State := {
  fs : gmap string file;
  stdout : list string;
  trace : list event;
  ticks : nat
}.

Definition log (ev : event) (st : State) : State :=
  {| fs := fs st; stdout := stdout st; trace := trace st ++ [ev]; ticks := ticks st |}.

Definition tick (st : State) : State :=
  {| fs := fs st; stdout := stdout st; trace := trace st; ticks := S (ticks st) |}.

Definition put_file (path : string) (f : file) (st : State) : State :=
  log (Wrote path)
    {| fs := <[path := f]> (fs st); stdout := stdout st; trace := trace st; ticks := ticks st |}.

Definition put_line (s : string) (st : State) : State :=
  {| fs := fs st; stdout := stdout st ++ [s]; trace := trace st; ticks := ticks st |}.

(** A relative file name is resolved against the working directory. *)
Definition is_absolute (p : string) : bool :=
  match p with
  | String c _ => if decide (c = "/"%char) then true else false
  | EmptyString => false
  end.

Definition resolve (dir p : string) : string :=
  if is_absolute p then p else dir +:+ "/" +:+ p.

(** ** The monad *)

Inductive result (A : Type) :=
  | Ok (a : A)
  | Raise (e : exn).
Arguments Ok {A} a.
Arguments Raise {A} e.

Definition Py (A : Type) : Type := Env → State → result A * State.

Definition ret {A} (a : A) : Py A := λ _ st, (Ok a, st).

Definition bind {A B} (m : Py A) (k : A → Py B) : Py B :=
  λ env st,
    match m env st with
    | (Ok a, st') => k a env st'
    | (Raise e, st') => (Raise e, st')
    end.

Definition raise {A} (e : exn) : Py A := λ _ st, (Raise e, st).

#[global] Instance Py_ret : MRet Py := @ret.
#[global] Instance Py_bind : MBind Py := λ A B k m, bind m k.
#[global] Instance Py_throw : MThrow exn Py := @raise.

(** [try: body except ImportError: handler].  The handler runs for an
    ImportError raised anywhere in [body]; anything else propagates. *)
Definition try_except_ImportError {A} (body handler : Py A) : Py A :=
  λ env st,
    match body env st with
    | (Ok a, st') => (Ok a, st')
    | (Raise e, st') =>
        if isinstance_ImportError e then handler env st' else (Raise e, st')
    end.

(** [with resource: body]: the exit runs on the way out of [body], also
    when [body] raised; the exception is then raised again. *)
Definition with_exit {A} (body : Py A) (exit : Py unit) : Py A :=
  λ env st,
    match body env st with
    | (Ok a, st') =>
        match exit env st' with
        | (Ok _, st'') => (Ok a, st'')
        | (Raise e, st'') => (Raise e, st'')
        end
    | (Raise e, st') =>
        match exit env st' with
        | (Ok _, st'') => (Raise e, st'')
        | (Raise e', st'') => (Raise e', st'')
        end
    end.

(** [import m] and [from m import x]: the module is found or
    ModuleNotFoundError is raised. *)
Definition import_ (m : string) : Py unit :=
  λ env st,
    if importable env m then (Ok tt, log (Imported m) st)
    else (Raise (ModuleNotFoundError m), log (ImportFailed m) st).

(** A call that leaves the script: it fails as the environment says, with
    no effect, or it has the effect [eff] and returns [r]. *)
Definition call {A} (a : api) (eff : State → State) (r : A) : Py A :=
  λ env st,
    match fault env (ticks st) a with
    | Some f => (Raise (Failure f), log (Raised a f) (tick st))
    | None => (Ok r, eff (log (Called a) (tick st)))
    end.

Definition pure_call {A} (a : api) (r : A) : Py A := call a id r.

(** ** Builtins *)

Definition print (s : string) : Py unit := call builtin_print (put_line s) tt.

(** [open(name, 'w')] creates or truncates the file; the handle is the
    resolved path. *)
Definition open_w (name : string) : Py string :=
  λ env st,
    let p := resolve (cwd env) name in
    call builtin_open (put_file p (TextFile "")) p env st.

Definition text_of (o : option file) : string :=
  match o with
  | Some (TextFile s) => s
  | _ => ""
  end.

(** [f.write(s)] appends to the file behind the handle (as on POSIX: a
    newline is written as it is). *)
Definition write (f : string) (s : string) : Py unit :=
  λ env st,
    call file_write (put_file f (TextFile (text_of (fs st !! f) +:+ s))) tt env st.

Definition close (f : string) : Py unit := pure_call file_close tt.

(** [with open(name, 'w') as f: body]. *)
Definition with_open_w {A} (name : string) (body : string → Py A) : Py A :=
  f ← open_w name; with_exit (body f) (close f).

(** [with obj: s1; s2; ...] where every statement updates [obj]: the exit
    sees the object as the statements left it, also when one raised. *)
Fixpoint with_object {R} (steps : list (R → Py R)) (exit : R → Py unit) (r : R) : Py unit :=
  match steps with
  | [] => exit r
  | s :: rest =>
      λ env st,
        match s r env st with
        | (Ok r', st') => with_object rest exit r' env st'
        | (Raise e, st') =>
            match exit r env st' with
            | (Ok _, st'') => (Raise e, st'')
            | (Raise e', st'') => (Raise e', st'')
            end
        end
  end.

(** ** Grids *)

(** Values written left to right from (r, c), and top to bottom. *)
Fixpoint write_cells {V} (r c : nat) (vs : list V) (m : gmap (nat * nat) V) : gmap (nat * nat) V :=
  match vs with
  | [] => m
  | v :: vs' => write_cells r (S c) vs' (<[(r, c) := v]> m)
  end.

Fixpoint write_column {V} (r c : nat) (vs : list V) (m : gmap (nat * nat) V) : gmap (nat * nat) V :=
  match vs with
  | [] => m
  | v :: vs' => write_column (S r) c vs' (<[(r, c) := v]> m)
  end.

Fixpoint write_columns {V} (r c : nat) (cols : list (list V)) (m : gmap (nat * nat) V) : gmap (nat * nat) V :=
  match cols with
  | [] => m
  | col :: cols' => write_columns r (S c) cols' (write_column r c col m)
  end.

(** ** openpyxl *)

Module Openpyxl.

(** A worksheet: cells by 1-based (row, column), and the last row
    [append] filled. *)
Record Worksheet := {
  title : string;
  cells : gmap (nat * nat) pyval;
  current_row : nat
}.

(** A workbook owns its sheets; a worksheet variable of the script is a
    reference to one of them, here its position. *)
Record Workbook := {
  sheets : list Worksheet;
  active_index : nat
}.

Definition new_sheet (t : string) : Worksheet :=
  {| title := t; cells := ∅; current_row := 0 |}.

Definition with_title (t : string) (ws : Worksheet) : Worksheet :=
  {| title := t; cells := cells ws; current_row := current_row ws |}.

(** [append] fills the row after the last one, from column 1. *)
Definition with_row (row : list pyval) (ws : Worksheet) : Worksheet :=
  let r := S (current_row ws) in
  {| title := title ws; cells := write_cells r 1 row (cells ws); current_row := r |}.

Definition with_cells (f : gmap (nat * nat) pyval → gmap (nat * nat) pyval)
    (ws : Worksheet) : Worksheet :=
  {| title := title ws; cells := f (cells ws); current_row := current_row ws |}.

Definition update (ws : nat) (f : Worksheet → Worksheet) (wb : Workbook) : Workbook :=
  {| sheets := alter f ws (sheets wb); active_index := active_index wb |}.

Definition with_sheet (t : string) (wb : Workbook) : Workbook :=
  {| sheets := sheets wb ++ [new_sheet t]; active_index := active_index wb |}.

Definition to_xlsx (wb : Workbook) : workbook :=
  (λ ws, Sheet (title ws) (cell_of_pyval <$> cells ws)) <$> sheets wb.

(** [Workbook()]: one sheet, titled "Sheet", which is the active one. *)
Definition Workbook_ : Py Workbook :=
  pure_call openpyxl_Workbook {| sheets := [new_sheet "Sheet"]; active_index := 0 |}.

(** [wb.active] *)
Definition active (wb : Workbook) : Py nat :=
  pure_call openpyxl_active (active_index wb).

(** [ws.title = t].  The titles the scripts use never collide, so the
    renaming of a duplicate title is left out. *)
Definition set_title (wb : Workbook) (ws : nat) (t : string) : Py Workbook :=
  pure_call openpyxl_set_title (update ws (with_title t) wb).

(** [ws.append(row)] *)
Definition append (wb : Workbook) (ws : nat) (row : list pyval) : Py Workbook :=
  pure_call openpyxl_append (update ws (with_row row) wb).

(** [wb.create_sheet(t)]: the new sheet goes after the others. *)
Definition create_sheet (wb : Workbook) (t : string) : Py (Workbook * nat) :=
  pure_call openpyxl_create_sheet (with_sheet t wb, length (sheets wb)).

(** [wb.save(name)] *)
Definition save (wb : Workbook) (name : string) : Py unit :=
  λ env st,
    call openpyxl_save
      (put_file (resolve (cwd env) name) (XlsxFile (now env) (to_xlsx wb))) tt env st.

End Openpyxl.

(** ** xlsxwriter *)

Module Xlsxwriter.

(** A worksheet: cells by 0-based (row, column). *)
Record Worksheet := {
  name : string;
  table : gmap (nat * nat) pyval
}.

Record Workbook := {
  filename : string;
  worksheets : list Worksheet
}.

Definition with_row (row col : nat) (data : list pyval) (ws : Worksheet) : Worksheet :=
  {| name := name ws; table := write_cells row col data (table ws) |}.

Definition update (ws : nat) (f : Worksheet → Worksheet) (wb : Workbook) : Workbook :=
  {| filename := filename wb; worksheets := alter f ws (worksheets wb) |}.

Definition with_sheet (n : string) (wb : Workbook) : Workbook :=
  {| filename := filename wb; worksheets := worksheets wb ++ [{| name := n; table := ∅ |}] |}.

(** Cell (row, col) of the library is cell (row + 1, col + 1) of the
    file: (0, 0) is A1. *)
Definition a1 (rc : nat * nat) : nat * nat := (S rc.1, S rc.2).

Definition to_xlsx (wb : Workbook) : workbook :=
  (λ ws, Sheet (name ws)
           (list_to_map ((λ kv, (a1 kv.1, cell_of_pyval kv.2)) <$> map_to_list (table ws))))
    <$> worksheets wb.

(** [xlsxwriter.Workbook(name)]: nothing is written before [close]. *)
Definition Workbook_ (n : string) : Py Workbook :=
  pure_call xlsxwriter_Workbook {| filename := n; worksheets := [] |}.

(** [workbook.add_worksheet(name)] *)
Definition add_worksheet (wb : Workbook) (n : string) : Py (Workbook * nat) :=
  pure_call xlsxwriter_add_worksheet (with_sheet n wb, length (worksheets wb)).

(** [worksheet.write_row(row, col, data)] *)
Definition write_row (wb : Workbook) (ws : nat) (row col : nat) (data : list pyval) : Py Workbook :=
  pure_call xlsxwriter_write_row (update ws (with_row row col data) wb).

(** [workbook.close()] writes the file. *)
Definition close (wb : Workbook) : Py unit :=
  λ env st,
    call xlsxwriter_close
      (put_file (resolve (cwd env) (filename wb)) (XlsxFile (now env) (to_xlsx wb))) tt env st.

End Xlsxwriter.

(** ** pandas *)

Module Pandas.

(** A frame built from a dict of lists: its columns in the dict's
    order. *)
Record DataFrame := { columns : list (string * list pyval) }.

Definition same_length (data : list (string * list pyval)) : bool :=
  match data with
  | [] => true
  | (_, c) :: rest => forallb (λ kc, Nat.eqb (length kc.2) (length c)) rest
  end.

(** [pd.DataFrame(data)]: the lists must have one length. *)
Definition DataFrame_ (data : list (string * list pyval)) : Py DataFrame :=
  _ ← pure_call pandas_DataFrame tt;
  if same_length data then mret {| columns := data |}
  else mthrow (Failure ValueError).

(** A writer on the openpyxl engine: the file to write and the engine's
    workbook. *)
Record ExcelWriter := {
  path : string;
  book : Openpyxl.Workbook
}.

(** [pd.ExcelWriter(name, engine='openpyxl')] imports the engine and
    starts from a workbook without sheets. *)
Definition ExcelWriter_ (n : string) : Py ExcelWriter :=
  _ ← pure_call pandas_ExcelWriter tt;
  import_ "openpyxl";;
  mret {| path := n; book := {| Openpyxl.sheets := []; Openpyxl.active_index := 0 |} |}.

Definition row_count (df : DataFrame) : nat :=
  match columns df with
  | [] => 0
  | (_, c) :: _ => length c
  end.

(** The grid of one frame: the column names in row 1 and the values
    below; with [index], the row labels 0, 1, ... come first, in column 1
    under an empty corner. *)
Definition frame_cells (df : DataFrame) (index : bool) : gmap (nat * nat) pyval :=
  let off := if index then 1 else 0 in
  let labels := if index then (λ i, PyInt (Z.of_nat i)) <$> seq 0 (row_count df) else [] in
  write_columns 2 (1 + off) ((columns df).*2)
    (write_column 2 1 labels
       (write_cells 1 (1 + off) (PyStr <$> (columns df).*1) ∅)).

Definition with_frame (df : DataFrame) (sheet_name : string) (index : bool)
    (w : ExcelWriter) : ExcelWriter :=
  {| path := path w;
     book := Openpyxl.update (length (Openpyxl.sheets (book w)))
               (Openpyxl.with_cells (λ _, frame_cells df index))
               (Openpyxl.with_sheet sheet_name (book w)) |}.

(** [df.to_excel(writer, sheet_name=..., index=...)]: a new sheet of the
    writer's workbook. *)
Definition to_excel (df : DataFrame) (sheet_name : string) (index : bool)
    (w : ExcelWriter) : Py ExcelWriter :=
  pure_call pandas_to_excel (with_frame df sheet_name index w).

(** Leaving the [with] block saves the workbook. *)
Definition exit (w : ExcelWriter) : Py unit :=
  λ env st,
    call pandas_ExcelWriter_exit
      (put_file (resolve (cwd env) (path w))
         (XlsxFile (now env) (Openpyxl.to_xlsx (book w)))) tt env st.

End Pandas.

(** ** create_test_xlsx.py *)

Module create_test_xlsx.

Definition create_with_openpyxl : Py bool :=
  try_except_ImportError
    (import_ "openpyxl";;
     wb ← Openpyxl.Workbook_;
     ws ← Openpyxl.active wb;
     wb ← Openpyxl.set_title wb ws "Sheet1";
     wb ← Openpyxl.append wb ws [PyStr "Name"; PyStr "Age"; PyStr "City"; PyStr "Salary"];
     wb ← Openpyxl.append wb ws [PyStr "John Doe"; PyInt 25; PyStr "New York"; PyInt 50000];
     wb ← Openpyxl.append wb ws [PyStr "Jane Smith"; PyInt 30; PyStr "Los Angeles"; PyInt 60000];
     wb ← Openpyxl.append wb ws [PyStr "Bob Johnson"; PyInt 35; PyStr "Chicago"; PyInt 70000];
     '(wb, ws2) ← Openpyxl.create_sheet wb "Products";
     wb ← Openpyxl.append wb ws2 [PyStr "Product"; PyStr "Price"; PyStr "Stock"];
     wb ← Openpyxl.append wb ws2 [PyStr "Laptop"; PyFloat 999.99; PyInt 10];
     wb ← Openpyxl.append wb ws2 [PyStr "Mouse"; PyFloat 25.50; PyInt 50];
     wb ← Openpyxl.append wb ws2 [PyStr "Keyboard"; PyFloat 75.00; PyInt 25];
     Openpyxl.save wb "test_data.xlsx";;
     print "✅ Created test_data.xlsx using openpyxl";;
     mret true)
    (mret false).

Definition create_with_xlsxwriter : Py bool :=
  try_except_ImportError
    (import_ "xlsxwriter";;
     workbook ← Xlsxwriter.Workbook_ "test_data.xlsx";
     '(workbook, worksheet1) ← Xlsxwriter.add_worksheet workbook "Sheet1";
     workbook ← Xlsxwriter.write_row workbook worksheet1 0 0
                  [PyStr "Name"; PyStr "Age"; PyStr "City"; PyStr "Salary"];
     workbook ← Xlsxwriter.write_row workbook worksheet1 1 0
                  [PyStr "John Doe"; PyInt 25; PyStr "New York"; PyInt 50000];
     workbook ← Xlsxwriter.write_row workbook worksheet1 2 0
                  [PyStr "Jane Smith"; PyInt 30; PyStr "Los Angeles"; PyInt 60000];
     workbook ← Xlsxwriter.write_row workbook worksheet1 3 0
                  [PyStr "Bob Johnson"; PyInt 35; PyStr "Chicago"; PyInt 70000];
     '(workbook, worksheet2) ← Xlsxwriter.add_worksheet workbook "Products";
     workbook ← Xlsxwriter.write_row workbook worksheet2 0 0
                  [PyStr "Product"; PyStr "Price"; PyStr "Stock"];
     workbook ← Xlsxwriter.write_row workbook worksheet2 1 0
                  [PyStr "Laptop"; PyFloat 999.99; PyInt 10];
     workbook ← Xlsxwriter.write_row workbook worksheet2 2 0
                  [PyStr "Mouse"; PyFloat 25.50; PyInt 50];
     workbook ← Xlsxwriter.write_row workbook worksheet2 3 0
                  [PyStr "Keyboard"; PyFloat 75.00; PyInt 25];
     Xlsxwriter.close workbook;;
     print "✅ Created test_data.xlsx using xlsxwriter";;
     mret true)
    (mret false).

Definition create_csv_fallback : Py unit :=
  with_open_w "test_data.csv" (λ f : string,
    write f "Name,Age,City,Salary
";;
    write f "John Doe,25,New York,50000
";;
    write f "Jane Smith,30,Los Angeles,60000
";;
    write f "Bob Johnson,35,Chicago,70000
");;
  print "✅ Created test_data.csv as fallback";;
  print "Note: You'll need a real Excel file to test the xlsx parser".

(** Each [return] of the source ends [main] with None. *)
Definition main : Py unit :=
  print "Creating test Excel file...";;
  a ← create_with_openpyxl;
  if a : bool then mret tt
  else
    b ← create_with_xlsxwriter;
    if b : bool then mret tt
    else
      print "❌ Neither openpyxl nor xlsxwriter available";;
      print "Install one of them: pip install openpyxl  or  pip install xlsxwriter";;
      create_csv_fallback.

(** The module, run as a program: [import sys] binds a module every
    interpreter has, the definitions follow, and [main()] is called. *)
Definition script : Py unit := main.

End create_test_xlsx.

(** ** test_data.py *)

Module test_data.

Definition sheet1_data : list (string * list pyval) :=
  [("Name", [PyStr "John Doe"; PyStr "Jane Smith"; PyStr "Bob Johnson"]);
   ("Age", [PyInt 25; PyInt 30; PyInt 35]);
   ("City", [PyStr "New York"; PyStr "Los Angeles"; PyStr "Chicago"]);
   ("Salary", [PyInt 50000; PyInt 60000; PyInt 70000])].

Definition sheet2_data : list (string * list pyval) :=
  [("Product", [PyStr "Laptop"; PyStr "Mouse"; PyStr "Keyboard"]);
   ("Price", [PyFloat 999.99; PyFloat 25.50; PyFloat 75.00]);
   ("Stock", [PyInt 10; PyInt 50; PyInt 25])].

Definition sheet3_data : list (string * list pyval) :=
  [("Date", [PyStr "2024-01-01"; PyStr "2024-01-02"; PyStr "2024-01-03"]);
   ("Sales", [PyInt 1000; PyInt 1200; PyInt 800]);
   ("Profit", [PyInt 200; PyInt 300; PyInt 150])].

Definition create_test_excel : Py unit :=
  df1 ← Pandas.DataFrame_ sheet1_data;
  df2 ← Pandas.DataFrame_ sheet2_data;
  df3 ← Pandas.DataFrame_ sheet3_data;
  writer ← Pandas.ExcelWriter_ "test_data.xlsx";
  with_object
    [Pandas.to_excel df1 "Employees" false;
     Pandas.to_excel df2 "Products" false;
     Pandas.to_excel df3 "Sales" false]
    Pandas.exit writer;;
  print "Created test_data.xlsx with 3 sheets:";;
  print "- Employees: 3 rows, 4 columns";;
  print "- Products: 3 rows, 3 columns";;
  print "- Sales: 3 rows, 3 columns".

(** The module, run as a program: [import pandas as pd] comes first
    ([import os] binds a module every interpreter has), then
    [create_test_excel()] is called. *)
Definition script : Py unit :=
  import_ "pandas";;
  create_test_excel.

End test_data.

(** ** The fixtures, as the specification describes them *)

(** A table laid out from A1: row [i] of the list is row [i + 1] of the
    sheet, its [j]-th value in column [j + 1]. *)
Definition grid_of_rows (rows : list (list cell)) : gmap (nat * nat) cell :=
  list_to_map (concat (imap (λ i row, imap (λ j v, ((S i, S j), v)) row) rows)).

Definition table (name : string) (header : list string) (rows : list (list cell)) : sheet :=
  Sheet name (grid_of_rows ((CStr <$> header) :: rows)).

Definition employee_rows : list (list cell) :=
  [[CStr "John Doe"; CNum 25; CStr "New York"; CNum 50000];
   [CStr "Jane Smith"; CNum 30; CStr "Los Angeles"; CNum 60000];
   [CStr "Bob Johnson"; CNum 35; CStr "Chicago"; CNum 70000]].

Definition product_rows : list (list cell) :=
  [[CStr "Laptop"; CNum 999.99; CNum 10];
   [CStr "Mouse"; CNum 25.50; CNum 50];
   [CStr "Keyboard"; CNum 75.00; CNum 25]].

Definition sales_rows : list (list cell) :=
  [[CStr "2024-01-01"; CNum 1000; CNum 200];
   [CStr "2024-01-02"; CNum 1200; CNum 300];
   [CStr "2024-01-03"; CNum 800; CNum 150]].

(** The workbook of the fallback-chain script. *)
Definition fixture_workbook : workbook :=
  [table "Sheet1" ["Name"; "Age"; "City"; "Salary"] employee_rows;
   table "Products" ["Product"; "Price"; "Stock"] product_rows].

(** The workbook of the dataframe script. *)
Definition dataframe_workbook : workbook :=
  [table "Employees" ["Name"; "Age"; "City"; "Salary"] employee_rows;
   table "Products" ["Product"; "Price"; "Stock"] product_rows;
   table "Sales" ["Date"; "Sales"; "Profit"] sales_rows].

(** The lines of the CSV fallback. *)
Definition csv_lines : list string :=
  ["Name,Age,City,Salary";
   "John Doe,25,New York,50000";
   "Jane Smith,30,Los Angeles,60000";
   "Bob Johnson,35,Chicago,70000"].

Definition newline : string := String (ascii_of_nat 10) EmptyString.

Definition csv_text : string := String.concat "" ((λ l, l +:+ newline) <$> csv_lines).

Definition xlsx_path (env : Env) : string := resolve (cwd env) "test_data.xlsx".
Definition csv_path (env : Env) : string := resolve (cwd env) "test_data.csv".

(** ** What a run did *)

(** The events and the output lines a run added, oldest first. *)
Definition events_since (st st' : State) : list event :=
  drop (length (trace st)) (trace st').

Definition printed_since (st st' : State) : list string :=
  drop (length (stdout st)) (stdout st').

(** The modules a run tried to import, the paths it wrote, and how often
    it called [a]. *)
Definition attempts (evs : list event) : list string :=
  omap (λ ev, match ev with
              | Imported m | ImportFailed m => Some m
              | _ => None
              end) evs.

Definition writes (evs : list event) : list string :=
  omap (λ ev, match ev with Wrote p => Some p | _ => None end) evs.

Definition calls_to (a : api) (evs : list event) : nat :=
  length (List.filter (λ ev, match ev with
                             | Called b | Raised b _ => bool_decide (a = b)
                             | _ => false
                             end) evs).

(** The failure of the last call that failed, if one did. *)
Fixpoint last_failure (evs : list event) : option failure :=
  match evs with
  | [] => None
  | ev :: evs' =>
      match last_failure evs' with
      | Some f => Some f
      | None => match ev with Raised _ f => Some f | _ => None end
      end
  end.

(** Closing the file is all that may follow a failed call. *)
Definition cleanup (ev : event) : bool :=
  match ev with
  | Called file_close | Raised file_close _ => true
  | _ => false
  end.

Fixpoint stops_at_failure (evs : list event) : bool :=
  match evs with
  | [] => true
  | Raised _ _ :: post => forallb cleanup post
  | _ :: evs' => stops_at_failure evs'
  end.

(** Two files with the same content, whatever the time stamped on a
    workbook. *)
Definition same_content (f g : file) : Prop :=
  match f, g with
  | TextFile s, TextFile t => s = t
  | XlsxFile _ b, XlsxFile _ c => b = c
  | _, _ => False
  end.

(** No call fails. *)
Definition faultless (env : Env) : Prop := ∀ n a, fault env n a = None.

(** The same world with another command line and other environment
    variables. *)
Definition with_args (env : Env) (args : list string) (vars : gmap string string) : Env :=
  {| importable := importable env; fault := fault env; cwd := cwd env;
     argv := args; environ := vars; now := now env |}.

(** ** Postconditions of runs *)

(** [wp m env st Q]: the run of [m] from [st] ends in a result and a state
    that satisfy [Q].  Runs are total, so this is [Q] at the outcome; the
    rules below follow the program statement by statement. *)
Definition wp {A} (m : Py A) (env : Env) (st : State) (Q : result A → State → Prop) : Prop :=
  Q (m env st).1 (m env st).2.

(** ** Runs that complete *)

Definition openpyxl_events (env : Env) : list event :=
  [Called builtin_print; Imported "openpyxl"] ++
  (Called <$> [openpyxl_Workbook; openpyxl_active; openpyxl_set_title;
               openpyxl_append; openpyxl_append; openpyxl_append; openpyxl_append;
               openpyxl_create_sheet;
               openpyxl_append; openpyxl_append; openpyxl_append; openpyxl_append;
               openpyxl_save]) ++
  [Wrote (xlsx_path env); Called builtin_print].

Definition xlsxwriter_events (env : Env) : list event :=
  [Called builtin_print; ImportFailed "openpyxl"; Imported "xlsxwriter"] ++
  (Called <$> [xlsxwriter_Workbook; xlsxwriter_add_worksheet;
               xlsxwriter_write_row; xlsxwriter_write_row;
               xlsxwriter_write_row; xlsxwriter_write_row;
               xlsxwriter_add_worksheet;
               xlsxwriter_write_row; xlsxwriter_write_row;
               xlsxwriter_write_row; xlsxwriter_write_row;
               xlsxwriter_close]) ++
  [Wrote (xlsx_path env); Called builtin_print].

Definition csv_events (env : Env) : list event :=
  [Called builtin_print; ImportFailed "openpyxl"; ImportFailed "xlsxwriter";
   Called builtin_print; Called builtin_print;
   Called builtin_open; Wrote (csv_path env);
   Called file_write; Wrote (csv_path env);
   Called file_write; Wrote (csv_path env);
   Called file_write; Wrote (csv_path env);
   Called file_write; Wrote (csv_path env);
   Called file_close; Called builtin_print; Called builtin_print].

(** The three ways [main] returns. *)
Inductive main_outcome (env : Env) (st st' : State) : Prop :=
  | by_openpyxl :
      importable env "openpyxl" = true →
      fs st' = <[xlsx_path env := XlsxFile (now env) fixture_workbook]> (fs st) →
      events_since st st' = openpyxl_events env →
      printed_since st st' =
        ["Creating test Excel file..."; "✅ Created test_data.xlsx using openpyxl"] →
      main_outcome env st st'
  | by_xlsxwriter :
      importable env "openpyxl" = false →
      importable env "xlsxwriter" = true →
      fs st' = <[xlsx_path env := XlsxFile (now env) fixture_workbook]> (fs st) →
      events_since st st' = xlsxwriter_events env →
      printed_since st st' =
        ["Creating test Excel file..."; "✅ Created test_data.xlsx using xlsxwriter"] →
      main_outcome env st st'
  | by_csv :
      importable env "openpyxl" = false →
      importable env "xlsxwriter" = false →
      fs st' = <[csv_path env := TextFile csv_text]> (fs st) →
      events_since st st' = csv_events env →
      printed_since st st' =
        ["Creating test Excel file...";
         "❌ Neither openpyxl nor xlsxwriter available";
         "Install one of them: pip install openpyxl  or  pip install xlsxwriter";
         "✅ Created test_data.csv as fallback";
         "Note: You'll need a real Excel file to test the xlsx parser"] →
      main_outcome env st st'.

(** ** Every run *)

Definition hello : string := "Creating test Excel file...".
Definition guidance : list string :=
  ["❌ Neither openpyxl nor xlsxwriter available";
   "Install one of them: pip install openpyxl  or  pip install xlsxwriter"].

(** How far a run of [main] got: before the first import, in the
    openpyxl branch, in the xlsxwriter branch, or in the CSV fallback;
    [files] is the file system it left. *)
Inductive main_stage (env : Env) (files : gmap string file)
    (evs : list event) (lines : list string) : Prop :=
  | stage_start :
      attempts evs = [] → writes evs = [] → calls_to builtin_open evs = 0 →
      lines `prefix_of` [hello] →
      main_stage env files evs lines
  | stage_openpyxl :
      importable env "openpyxl" = true →
      attempts evs = ["openpyxl"] →
      writes evs = [] ∨
        writes evs = [xlsx_path env] ∧
        files !! xlsx_path env = Some (XlsxFile (now env) fixture_workbook) →
      calls_to builtin_open evs = 0 →
      lines `prefix_of` [hello; "✅ Created test_data.xlsx using openpyxl"] →
      main_stage env files evs lines
  | stage_xlsxwriter :
      importable env "openpyxl" = false →
      importable env "xlsxwriter" = true →
      attempts evs = ["openpyxl"; "xlsxwriter"] →
      writes evs = [] ∨
        writes evs = [xlsx_path env] ∧
        files !! xlsx_path env = Some (XlsxFile (now env) fixture_workbook) →
      calls_to builtin_open evs = 0 →
      lines `prefix_of` [hello; "✅ Created test_data.xlsx using xlsxwriter"] →
      main_stage env files evs lines
  | stage_csv :
      importable env "openpyxl" = false →
      importable env "xlsxwriter" = false →
      attempts evs = ["openpyxl"; "xlsxwriter"] →
      Forall (λ p, p = csv_path env) (writes evs) →
      (calls_to builtin_open evs ≤ 1)%nat →
      main_stage env files evs lines.

(** What holds of every run of [main], failed or not. *)
Record main_run (env : Env) (st : State) (r : result unit) (st' : State) : Prop := {
  run_result :
    r = match last_failure (events_since st st') with
        | Some f => Raise (Failure f)
        | None => Ok tt
        end;
  run_stops : stops_at_failure (events_since st st') = true;
  run_stage : main_stage env (fs st') (events_since st st') (printed_since st st');
  run_frame :
    ∀ p, p ≠ xlsx_path env → p ≠ csv_path env → fs st' !! p = fs st !! p
}.

(** ** The two helpers *)

(** How a helper for library [lib] ends: the library is missing and
    nothing else has happened; or the workbook is written; or a call
    failed and its failure is raised. *)
Inductive helper_outcome (lib : string) (env : Env) (st : State) :
    result bool → State → Prop :=
  | helper_unavailable :
      importable env lib = false →
      helper_outcome lib env st (Ok false) (log (ImportFailed lib) st)
  | helper_done st' :
      importable env lib = true →
      fs st' = <[xlsx_path env := XlsxFile (now env) fixture_workbook]> (fs st) →
      attempts (events_since st st') = [lib] →
      writes (events_since st st') = [xlsx_path env] →
      last_failure (events_since st st') = None →
      helper_outcome lib env st (Ok true) st'
  | helper_failed a f st' :
      importable env lib = true →
      head (events_since st st') = Some (Imported lib) →
      last (events_since st st') = Some (Raised a f) →
      helper_outcome lib env st (Raise (Failure f)) st'.

(** ** The dataframe script *)

Definition dataframe_events (env : Env) : list event :=
  [Imported "pandas";
   Called pandas_DataFrame; Called pandas_DataFrame; Called pandas_DataFrame;
   Called pandas_ExcelWriter; Imported "openpyxl";
   Called pandas_to_excel; Called pandas_to_excel; Called pandas_to_excel;
   Called pandas_ExcelWriter_exit; Wrote (xlsx_path env);
   Called builtin_print; Called builtin_print; Called builtin_print;
   Called builtin_print].

(** What holds of every run of the dataframe script: it writes nothing
    but the workbook, at most once. *)
Record script_run (env : Env) (st st' : State) : Prop := {
  script_writes :
    writes (events_since st st') = [] ∨ writes (events_since st st') = [xlsx_path env];
  script_opens : calls_to builtin_open (events_since st st') = 0;
  script_frame : ∀ p, p ≠ xlsx_path env → fs st' !! p = fs st !! p
}.

(** ** Programs that do not look at the command line or the environment *)

Definition ignores_args {A} (m : Py A) : Prop :=
  ∀ env args vars st, m (with_args env args vars) st = m env st.

(** ** Every run, call by call *)

(** How often a call to [a] returned. *)
Definition succeeded (a : api) (evs : list event) : nat :=
  length (List.filter (λ ev, match ev with
                             | Called b => bool_decide (a = b)
                             | _ => false
                             end) evs).

(** The first [k] lines of the CSV, each ended by a newline. *)
Definition csv_prefix (k : nat) : string :=
  String.concat "" ((λ l, l +:+ newline) <$> take k csv_lines).

(** A failed write is followed by the closing of the file and by nothing
    else. *)
Fixpoint closes_after_failed_write (evs : list event) : bool :=
  match evs with
  | [] => true
  | Raised file_write _ :: post =>
      match post with
      | [Called file_close] | [Raised file_close _] => true
      | _ => false
      end
  | _ :: evs' => closes_after_failed_write evs'
  end.

(** What holds of every run of [create_csv_fallback], failed or not. *)
Record csv_run (env : Env) (st : State) (r : result unit) (st' : State) : Prop := {
  csv_result :
    r = match last_failure (events_since st st') with
        | Some f => Raise (Failure f)
        | None => Ok tt
        end;
  csv_imports : attempts (events_since st st') = [];
  csv_opens : calls_to builtin_open (events_since st st') = 1;
  csv_closes :
    calls_to file_close (events_since st st') = succeeded builtin_open (events_since st st');
  csv_closed_opened :
    succeeded file_close (events_since st st') ≤ succeeded builtin_open (events_since st st');
  csv_after_write : closes_after_failed_write (events_since st st') = true;
  csv_file :
    fs st' =
      if decide (succeeded builtin_open (events_since st st') = 0) then fs st
      else <[csv_path env :=
               TextFile (csv_prefix (succeeded file_write (events_since st st')))]> (fs st);
  csv_written :
    succeeded file_write (events_since st st') ≤ 4 ∧
    (r = Ok tt →
       succeeded builtin_open (events_since st st') = 1 ∧
       succeeded file_write (events_since st st') = 4);
  csv_report :
    printed_since st st' `prefix_of`
      ["✅ Created test_data.csv as fallback";
       "Note: You'll need a real Excel file to test the xlsx parser"] ∧
    (printed_since st st' ≠ [] → succeeded file_write (events_since st st') = 4)
}.

(** What the lines printed by [main] say is true, in every run; and the
    CSV file is closed whenever it was opened. *)
Record main_report (env : Env) (st : State) (st' : State) : Prop := {
  report_closes :
    calls_to file_close (events_since st st') = succeeded builtin_open (events_since st st');
  report_after_write : closes_after_failed_write (events_since st st') = true;
  report_banner :
    printed_since st st' = [] ∨ head (printed_since st st') = Some hello;
  report_openpyxl :
    "✅ Created test_data.xlsx using openpyxl" ∈ printed_since st st' →
    importable env "openpyxl" = true ∧
    fs st' !! xlsx_path env = Some (XlsxFile (now env) fixture_workbook);
  report_xlsxwriter :
    "✅ Created test_data.xlsx using xlsxwriter" ∈ printed_since st st' →
    importable env "openpyxl" = false ∧ importable env "xlsxwriter" = true ∧
    fs st' !! xlsx_path env = Some (XlsxFile (now env) fixture_workbook);
  report_csv :
    "✅ Created test_data.csv as fallback" ∈ printed_since st st' →
    importable env "openpyxl" = false ∧ importable env "xlsxwriter" = false ∧
    fs st' !! csv_path env = Some (TextFile csv_text)
}.

(** What holds of every run of a helper for library [lib], which writes
    the workbook with the call [save] and then prints [line]: nothing is
    written before [save] is called, the workbook is complete when it
    returns, and only the [print] can fail after it. *)
Record helper_run (lib : string) (save : api) (line : string) (env : Env) (st : State)
    (r : result bool) (st' : State) : Prop := {
  helper_imports : attempts (events_since st st') = [lib];
  helper_saves_once : calls_to save (events_since st st') ≤ 1;
  helper_before_save :
    calls_to save (events_since st st') = 0 →
    fs st' = fs st ∧ printed_since st st' = [] ∧ r ≠ Ok true;
  helper_after_save :
    succeeded save (events_since st st') ≠ 0 →
    fs st' = <[xlsx_path env := XlsxFile (now env) fixture_workbook]> (fs st) ∧
    writes (events_since st st') = [xlsx_path env] ∧
    (r = Ok true ∧ printed_since st st' = [line] ∨
     ∃ f, r = Raise (Failure f) ∧
          last (events_since st st') = Some (Raised builtin_print f) ∧
          printed_since st st' = [])
}.

(** The module whose import failed, if one did. *)
Definition import_failure (evs : list event) : option string :=
  head (omap (λ ev, match ev with ImportFailed m => Some m | _ => None end) evs).

(** Leaving the [with] block of the writer is all that may follow a failed
    call of the dataframe script. *)
Definition writer_exit (ev : event) : bool :=
  match ev with
  | Called pandas_ExcelWriter_exit | Raised pandas_ExcelWriter_exit _ | Wrote _ => true
  | _ => false
  end.

Fixpoint stops_at_failure_but (ok : event → bool) (evs : list event) : bool :=
  match evs with
  | [] => true
  | Raised _ _ :: post => forallb ok post
  | _ :: evs' => stops_at_failure_but ok evs'
  end.

(** The lines the dataframe script prints when it is done. *)
Definition dataframe_report : list string :=
  ["Created test_data.xlsx with 3 sheets:";
   "- Employees: 3 rows, 4 columns";
   "- Products: 3 rows, 3 columns";
   "- Sales: 3 rows, 3 columns"].

(** What holds of every run of the dataframe script, failed or not. *)
Record dataframe_run (env : Env) (st : State) (r : result unit) (st' : State) : Prop := {
  dataframe_result :
    r = match import_failure (events_since st st') with
        | Some m => Raise (ModuleNotFoundError m)
        | None =>
            match last_failure (events_since st st') with
            | Some f => Raise (Failure f)
            | None => Ok tt
            end
        end;
  dataframe_import_failed :
    ∀ m, import_failure (events_since st st') = Some m →
         last (events_since st st') = Some (ImportFailed m) ∧
         last_failure (events_since st st') = None ∧
         writes (events_since st st') = [] ∧ printed_since st st' = [] ∧
         fs st' = fs st;
  dataframe_stops : stops_at_failure_but writer_exit (events_since st st') = true;
  dataframe_exits_once : calls_to pandas_ExcelWriter_exit (events_since st st') ≤ 1;
  dataframe_before_exit :
    calls_to pandas_ExcelWriter_exit (events_since st st') = 0 →
    fs st' = fs st ∧ writes (events_since st st') = [] ∧ r ≠ Ok tt;
  dataframe_lines : printed_since st st' `prefix_of` dataframe_report;
  dataframe_reported :
    printed_since st st' ≠ [] →
    importable env "pandas" = true ∧ importable env "openpyxl" = true ∧
    fs st' !! xlsx_path env = Some (XlsxFile (now env) dataframe_workbook);
  dataframe_done : r = Ok tt → printed_since st st' = dataframe_report
}.

(** ** Programs that look at some modules only *)

(** Two worlds in which the modules of [libs] import alike and that have
    the same faults, working directory and clock: they may differ in every
    other module, in the command line and in the environment variables. *)
Definition same_world_for (libs : list string) (env1 env2 : Env) : Prop :=
  (∀ m, m ∈ libs → importable env1 m = importable env2 m) ∧
  (∀ n a, fault env1 n a = fault env2 n a) ∧
  cwd env1 = cwd env2 ∧ now env1 = now env2.

Definition looks_only_at {A} (libs : list string) (m : Py A) : Prop :=
  ∀ env1 env2 st, same_world_for libs env1 env2 → m env1 st = m env2 st.

(** ** The CSV form of a table *)

(** The integer a number cell holds, if it holds one. *)
Definition Z_of_float (x : float) : option Z :=
  match Prim2SF x with
  | S754_zero _ => Some 0%Z
  | S754_finite s m e =>
      let n := if s then Z.neg m else Z.pos m in
      if (0 <=? e)%Z then Some (n * 2 ^ e)%Z
      else if (Z.pos m mod 2 ^ (- e) =? 0)%Z then Some (n / 2 ^ (- e))%Z
      else None
  | _ => None
  end.

(** A cell as a CSV field: the text of a string cell, the decimal digits
    of an integer; a number with a fraction has no field here. *)
Definition str_of_cell (c : cell) : option string :=
  match c with
  | CStr s => Some s
  | CNum x => pretty <$> Z_of_float x
  end.

(** The fields of a row joined by commas, and a newline. *)
Definition csv_line (row : list cell) : option string :=
  (λ fields, String.concat "," fields +:+ newline) <$> mapM str_of_cell row.

Definition csv_of_table (header : list string) (rows : list (list cell)) : option string :=
  String.concat "" <$> mapM csv_line ((CStr <$> header) :: rows).

(** ** Sample worlds *)

(** A world in which exactly the modules of [libs] import and the calls
    fail as [faults] says. *)
Definition world (libs : list string) (faults : nat → api → option failure) : Env :=
  {| importable := λ m, bool_decide (m ∈ libs);
     fault := faults;
     cwd := "/home/user/project";
     argv := [];
     environ := ∅;
     now := 1700000000%Z |}.

Definition no_faults : nat → api → option failure := λ _ _, None.

(** Every call to [a] fails with [f]. *)
Definition failing (a : api) (f : failure) : nat → api → option failure :=
  λ _ b, if bool_decide (a = b) then Some f else None.

Definition empty_disk : State :=
  {| fs := ∅; stdout := []; trace := []; ticks := 0 |}.

(** Another directory and another clock, without a library and with
    xlsxwriter only; and a disk that holds an older test_data.csv. *)
Definition elsewhere : Env :=
  {| importable := λ _, false; fault := no_faults; cwd := "/tmp";
     argv := []; environ := ∅; now := 1800000000 |}.

Definition elsewhere_xlsxwriter : Env :=
  {| importable := λ m, bool_decide (m = "xlsxwriter"); fault := no_faults;
     cwd := "/tmp"; argv := []; environ := ∅; now := 1800000000 |}.

Definition stale_disk : State :=
  {| fs := {[ "/tmp/test_data.csv" := TextFile "old" ]};
     stdout := []; trace := []; ticks := 0 |}.

(** The [n]-th call of the run fails with [f]; the others return. *)
Definition nth_call_fails (n : nat) (f : failure) : nat → api → option failure :=
  λ k _, if bool_decide (k = n) then Some f else None.

(** A world in /tmp in which every module imports and the fourth call
    fails for lack of space. *)
Definition disk_full : Env :=
  {| importable := λ _, true; fault := nth_call_fails 3 OSError; cwd := "/tmp";
     argv := []; environ := ∅; now := 1800000000 |}.

(** * Proofs *)

(** ** Rules for postconditions *)

Section wp_rules.
Context {A B : Type} (env : Env) (st : State).

Lemma wp_elim (m : Py A) (Q : result A → State → Prop) r st' :
  wp m env st Q → m env st = (r, st') → Q r st'.
Proof. unfold wp. intros H E. rewrite E in H. exact H. Qed.

Lemma wp_ret (a : A) (Q : result A → State → Prop) :
  Q (Ok a) st → wp (mret a) env st Q.
Proof. done. Qed.

Lemma wp_throw (e : exn) (Q : result A → State → Prop) :
  Q (Raise e) st → wp (mthrow e) env st Q.
Proof. done. Qed.

Lemma wp_bind (m : Py A) (k : A → Py B) (Q : result B → State → Prop) :
  wp m env st (λ r st',
    match r with
    | Ok a => wp (k a) env st' Q
    | Raise e => Q (Raise e) st'
    end) →
  wp (m ≫= k) env st Q.
Proof.
  unfold wp, mbind, Py_bind, bind.
  destruct (m env st) as [[a|e] st']; simpl; done.
Qed.

Lemma wp_call (a : api) (eff : State → State) (r : A) (Q : result A → State → Prop) :
  (∀ f, fault env (ticks st) a = Some f →
        Q (Raise (Failure f)) (log (Raised a f) (tick st))) →
  (fault env (ticks st) a = None → Q (Ok r) (eff (log (Called a) (tick st)))) →
  wp (call a eff r) env st Q.
Proof.
  unfold wp, call. intros Hf Hok.
  destruct (fault env (ticks st) a) as [f|]; simpl; auto.
Qed.

Lemma wp_try (body handler : Py A) (Q : result A → State → Prop) :
  wp body env st (λ r st',
    match r with
    | Ok a => Q (Ok a) st'
    | Raise e => if isinstance_ImportError e then wp handler env st' Q
                 else Q (Raise e) st'
    end) →
  wp (try_except_ImportError body handler) env st Q.
Proof.
  unfold wp, try_except_ImportError.
  destruct (body env st) as [[a|e] st']; simpl; [done|].
  by destruct (isinstance_ImportError e).
Qed.

Lemma wp_with_exit (body : Py A) (exit : Py unit) (Q : result A → State → Prop) :
  wp body env st (λ r st',
    wp exit env st' (λ r' st'',
      match r' with
      | Ok _ => Q r st''
      | Raise e' => Q (Raise e') st''
      end)) →
  wp (with_exit body exit) env st Q.
Proof.
  unfold wp, with_exit.
  destruct (body env st) as [[a|e] st']; simpl;
    destruct (exit env st') as [[[]|e'] st'']; simpl; done.
Qed.
End wp_rules.

Section wp_rules_unit.
Context (env : Env) (st : State).

Lemma wp_import (m : string) (Q : result unit → State → Prop) :
  (importable env m = true → Q (Ok tt) (log (Imported m) st)) →
  (importable env m = false →
     Q (Raise (ModuleNotFoundError m)) (log (ImportFailed m) st)) →
  wp (import_ m) env st Q.
Proof.
  unfold wp, import_. intros Ht Hf.
  destruct (importable env m); simpl; auto.
Qed.

Lemma wp_with_object_nil {R} (exit : R → Py unit) (r : R) (Q : result unit → State → Prop) :
  wp (exit r) env st Q → wp (with_object [] exit r) env st Q.
Proof. done. Qed.

Lemma wp_with_object_cons {R} (s : R → Py R) rest (exit : R → Py unit) (r : R)
    (Q : result unit → State → Prop) :
  wp (s r) env st (λ res st',
    match res with
    | Ok r' => wp (with_object rest exit r') env st' Q
    | Raise e =>
        wp (exit r) env st' (λ res' st'',
          match res' with
          | Ok _ => Q (Raise e) st''
          | Raise e' => Q (Raise e') st''
          end)
    end) →
  wp (with_object (s :: rest) exit r) env st Q.
Proof.
  unfold wp. simpl.
  destruct (s r env st) as [[r'|e] st']; simpl; [done|].
  destruct (exit r env st') as [[[]|e'] st'']; simpl; done.
Qed.
End wp_rules_unit.

Section wp_calls.
Context (env : Env) (st : State).

Lemma wp_open_w (name : string) (Q : result string → State → Prop) :
  (∀ f, fault env (ticks st) builtin_open = Some f →
        Q (Raise (Failure f)) (log (Raised builtin_open f) (tick st))) →
  (fault env (ticks st) builtin_open = None →
     Q (Ok (resolve (cwd env) name))
       (put_file (resolve (cwd env) name) (TextFile "")
          (log (Called builtin_open) (tick st)))) →
  wp (open_w name) env st Q.
Proof. apply wp_call. Qed.

Lemma wp_write (f s : string) (Q : result unit → State → Prop) :
  (∀ x, fault env (ticks st) file_write = Some x →
        Q (Raise (Failure x)) (log (Raised file_write x) (tick st))) →
  (fault env (ticks st) file_write = None →
     Q (Ok tt)
       (put_file f (TextFile (text_of (fs st !! f) +:+ s))
          (log (Called file_write) (tick st)))) →
  wp (write f s) env st Q.
Proof. apply wp_call. Qed.

Lemma wp_openpyxl_save wb (name : string) (Q : result unit → State → Prop) :
  (∀ f, fault env (ticks st) openpyxl_save = Some f →
        Q (Raise (Failure f)) (log (Raised openpyxl_save f) (tick st))) →
  (fault env (ticks st) openpyxl_save = None →
     Q (Ok tt)
       (put_file (resolve (cwd env) name) (XlsxFile (now env) (Openpyxl.to_xlsx wb))
          (log (Called openpyxl_save) (tick st)))) →
  wp (Openpyxl.save wb name) env st Q.
Proof. apply wp_call. Qed.

Lemma wp_xlsxwriter_close wb (Q : result unit → State → Prop) :
  (∀ f, fault env (ticks st) xlsxwriter_close = Some f →
        Q (Raise (Failure f)) (log (Raised xlsxwriter_close f) (tick st))) →
  (fault env (ticks st) xlsxwriter_close = None →
     Q (Ok tt)
       (put_file (resolve (cwd env) (Xlsxwriter.filename wb))
          (XlsxFile (now env) (Xlsxwriter.to_xlsx wb))
          (log (Called xlsxwriter_close) (tick st)))) →
  wp (Xlsxwriter.close wb) env st Q.
Proof. apply wp_call. Qed.

Lemma wp_pandas_exit w (Q : result unit → State → Prop) :
  (∀ f, fault env (ticks st) pandas_ExcelWriter_exit = Some f →
        Q (Raise (Failure f)) (log (Raised pandas_ExcelWriter_exit f) (tick st))) →
  (fault env (ticks st) pandas_ExcelWriter_exit = None →
     Q (Ok tt)
       (put_file (resolve (cwd env) (Pandas.path w))
          (XlsxFile (now env) (Openpyxl.to_xlsx (Pandas.book w)))
          (log (Called pandas_ExcelWriter_exit) (tick st)))) →
  wp (Pandas.exit w) env st Q.
Proof. apply wp_call. Qed.
End wp_calls.

(** One statement of the program: the rule for its head, then the
    continuation is exposed again. *)
Ltac wp_red :=
  cbv beta iota zeta delta [isinstance_ImportError].

Ltac wp_step :=
  lazymatch goal with
  | |- wp (mret _) _ _ _ => apply wp_ret
  | |- wp (mthrow _) _ _ _ => apply wp_throw
  | |- wp (mbind _ _) _ _ _ => apply wp_bind
  | |- wp (try_except_ImportError _ _) _ _ _ => apply wp_try
  | |- wp (import_ _) _ _ _ => apply wp_import; intros ?
  | |- wp (with_exit _ _) _ _ _ => apply wp_with_exit
  | |- wp (with_open_w _ _) _ _ _ => unfold with_open_w
  | |- wp (with_object [] _ _) _ _ _ => apply wp_with_object_nil
  | |- wp (with_object (_ :: _) _ _) _ _ _ => apply wp_with_object_cons
  | |- wp (open_w _) _ _ _ => apply wp_open_w; [intros ? ?|intros _]
  | |- wp (write _ _) _ _ _ => apply wp_write; [intros ? ?|intros _]
  | |- wp (Openpyxl.save _ _) _ _ _ => apply wp_openpyxl_save; [intros ? ?|intros _]
  | |- wp (Xlsxwriter.close _) _ _ _ => apply wp_xlsxwriter_close; [intros ? ?|intros _]
  | |- wp (Pandas.exit _) _ _ _ => apply wp_pandas_exit; [intros ? ?|intros _]
  | |- wp (if ?b then _ else _) _ _ _ =>
      let b' := eval vm_compute in b in change b with b'
  | |- wp _ _ _ _ => apply wp_call; [intros ? ?|intros _]
  end; wp_red.

(** ** Runs that complete *)

Lemma events_since_app st st' evs :
  trace st' = trace st ++ evs → events_since st st' = evs.
Proof. unfold events_since. intros ->. by rewrite drop_app_length. Qed.

Lemma printed_since_app st st' lines :
  stdout st' = stdout st ++ lines → printed_since st st' = lines.
Proof. unfold printed_since. intros ->. by rewrite drop_app_length. Qed.

Ltac state_simpl :=
  cbn [fs stdout trace ticks log tick put_file put_line id
       Xlsxwriter.filename Pandas.path].

(** The events, and the lines, of a run whose final state is explicit. *)
Ltac since_tac :=
  first [ apply events_since_app | apply printed_since_app ];
  state_simpl; rewrite <- ?app_assoc;
  first [ reflexivity | symmetry; apply app_nil_r ].

Ltac book_tac :=
  repeat match goal with
    | |- context [Openpyxl.to_xlsx ?wb] =>
        progress replace (Openpyxl.to_xlsx wb) with fixture_workbook
          by (vm_compute; reflexivity)
    | |- context [Xlsxwriter.to_xlsx ?wb] =>
        progress replace (Xlsxwriter.to_xlsx wb) with fixture_workbook
          by (vm_compute; reflexivity)
    end.

Ltac csv_tac :=
  rewrite ?lookup_insert_eq; cbn [text_of]; rewrite ?insert_insert_eq.

Ltac unfold_main :=
  unfold create_test_xlsx.main, create_test_xlsx.create_with_openpyxl,
    create_test_xlsx.create_with_xlsxwriter, create_test_xlsx.create_csv_fallback.

Lemma main_Ok env st st' :
  create_test_xlsx.main env st = (Ok tt, st') → main_outcome env st st'.
Proof.
  intros Hrun.
  refine (wp_elim env st _ (λ r st', r = Ok tt → main_outcome env st st')
            _ _ _ Hrun eq_refl).
  unfold_main.
  repeat wp_step; try discriminate; intros _.
  - apply by_openpyxl; [done| |since_tac..].
    state_simpl. book_tac. reflexivity.
  - apply by_xlsxwriter; [done|done| |since_tac..].
    state_simpl. book_tac. reflexivity.
  - apply by_csv; [done|done| |since_tac..].
    state_simpl. csv_tac. reflexivity.
Qed.

Lemma main_completes env st :
  faultless env → ∃ st', create_test_xlsx.main env st = (Ok tt, st').
Proof.
  intros Hok.
  cut (wp create_test_xlsx.main env st (λ r _, r = Ok tt)).
  { unfold wp. destruct (create_test_xlsx.main env st) as [r st']; simpl.
    intros ->. by exists st'. }
  unfold_main.
  repeat wp_step;
    try match goal with
        | H : fault _ _ _ = Some _ |- _ => rewrite Hok in H; discriminate H
        end;
    reflexivity.
Qed.

(** ** Every run *)

Ltac frame_tac :=
  let p := fresh "p" in
  let H1 := fresh in
  let H2 := fresh in
  intros p H1 H2; state_simpl; unfold xlsx_path, csv_path in *;
  rewrite ?lookup_insert_ne
    by (let E := fresh in
        intros E;
        first [ apply H1; symmetry; exact E | apply H2; symmetry; exact E ]);
  reflexivity.

Ltac prefix_tac := cbn [app]; eexists; reflexivity.

(** Nothing is written yet, or the workbook is and holds the fixture. *)
Ltac written_tac :=
  first
    [ left; reflexivity
    | right; split;
      [ reflexivity | state_simpl; book_tac; apply lookup_insert_eq ] ].

Ltac stage_tac :=
  first
    [ solve [ apply stage_start; [reflexivity|reflexivity|reflexivity|prefix_tac] ]
    | solve [ apply stage_openpyxl;
              [assumption|reflexivity|written_tac|reflexivity|prefix_tac] ]
    | solve [ apply stage_xlsxwriter;
              [assumption|assumption|reflexivity|written_tac|reflexivity|prefix_tac] ]
    | solve [ apply stage_csv;
              [assumption|assumption|reflexivity
              |cbn; repeat constructor
              |vm_compute; lia] ] ].

Ltac run_leaf :=
  lazymatch goal with
  | |- main_run ?env ?st ?r ?st' =>
      let E := fresh "E" in
      let L := fresh "L" in
      eassert (events_since st st' = _) as E by since_tac;
      eassert (printed_since st st' = _) as L by since_tac;
      split;
      [ rewrite E; reflexivity
      | rewrite E; reflexivity
      | rewrite E, L; stage_tac
      | frame_tac ]
  end.

Lemma main_runs env st :
  main_run env st (create_test_xlsx.main env st).1 (create_test_xlsx.main env st).2.
Proof.
  change (wp create_test_xlsx.main env st (main_run env st)).
  unfold_main.
  repeat wp_step.
  all: run_leaf.
Qed.

(** ** The two helpers *)

Ltac helper_leaf :=
  lazymatch goal with
  | |- helper_outcome _ _ ?st (Ok false) _ => by apply helper_unavailable
  | |- helper_outcome _ _ ?st (Ok true) ?st' =>
      let E := fresh "E" in
      eassert (events_since st st' = _) as E by since_tac;
      apply helper_done;
      [ assumption
      | state_simpl; book_tac; reflexivity
      | rewrite E; reflexivity..]
  | |- helper_outcome _ _ ?st (Raise _) ?st' =>
      let E := fresh "E" in
      eassert (events_since st st' = _) as E by since_tac;
      eapply helper_failed; [ assumption | rewrite E; reflexivity.. ]
  end.

Lemma create_with_openpyxl_runs env st :
  helper_outcome "openpyxl" env st
    (create_test_xlsx.create_with_openpyxl env st).1
    (create_test_xlsx.create_with_openpyxl env st).2.
Proof.
  change (wp create_test_xlsx.create_with_openpyxl env st
            (helper_outcome "openpyxl" env st)).
  unfold create_test_xlsx.create_with_openpyxl.
  repeat wp_step; helper_leaf.
Qed.

Lemma create_with_xlsxwriter_runs env st :
  helper_outcome "xlsxwriter" env st
    (create_test_xlsx.create_with_xlsxwriter env st).1
    (create_test_xlsx.create_with_xlsxwriter env st).2.
Proof.
  change (wp create_test_xlsx.create_with_xlsxwriter env st
            (helper_outcome "xlsxwriter" env st)).
  unfold create_test_xlsx.create_with_xlsxwriter.
  repeat wp_step; helper_leaf.
Qed.

(** ** The dataframe script *)

Ltac unfold_script :=
  unfold test_data.script, test_data.create_test_excel,
    Pandas.DataFrame_, Pandas.ExcelWriter_.

Ltac dataframe_book_tac :=
  repeat match goal with
    | |- context [Openpyxl.to_xlsx ?wb] =>
        progress replace (Openpyxl.to_xlsx wb) with dataframe_workbook
          by (vm_compute; reflexivity)
    end.

Lemma script_Ok env st st' :
  test_data.script env st = (Ok tt, st') →
  importable env "pandas" = true ∧ importable env "openpyxl" = true ∧
  fs st' = <[xlsx_path env := XlsxFile (now env) dataframe_workbook]> (fs st) ∧
  events_since st st' = dataframe_events env.
Proof.
  intros Hrun.
  refine (wp_elim env st _
            (λ r st', r = Ok tt →
               importable env "pandas" = true ∧ importable env "openpyxl" = true ∧
               fs st' = <[xlsx_path env := XlsxFile (now env) dataframe_workbook]> (fs st) ∧
               events_since st st' = dataframe_events env)
            _ _ _ Hrun eq_refl).
  unfold_script.
  repeat wp_step; try discriminate; intros _.
  split; [done|]. split; [done|]. split; [|since_tac].
  state_simpl. dataframe_book_tac. reflexivity.
Qed.

Lemma script_completes env st :
  importable env "pandas" = true → importable env "openpyxl" = true →
  faultless env →
  ∃ st', test_data.script env st = (Ok tt, st').
Proof.
  intros Hp Ho Hok.
  cut (wp test_data.script env st (λ r _, r = Ok tt)).
  { unfold wp. destruct (test_data.script env st) as [r st']; simpl.
    intros ->. by exists st'. }
  unfold_script.
  repeat wp_step;
    try match goal with
        | H : fault _ _ _ = Some _ |- _ => rewrite Hok in H; discriminate H
        end;
    first [ reflexivity | congruence ].
Qed.

Ltac script_leaf :=
  lazymatch goal with
  | |- script_run ?env ?st ?st' =>
      let E := fresh "E" in
      eassert (events_since st st' = _) as E by since_tac;
      split;
      [ rewrite E; first [left; reflexivity|right; reflexivity]
      | rewrite E; reflexivity
      | let p := fresh "p" in
        let H := fresh in
        intros p H; state_simpl; unfold xlsx_path in *;
        rewrite ?lookup_insert_ne
          by (let E := fresh in intros E; apply H; symmetry; exact E);
        reflexivity ]
  end.

Lemma script_runs env st :
  script_run env st (test_data.script env st).2.
Proof.
  change (wp test_data.script env st (λ _ st', script_run env st st')).
  unfold_script.
  repeat wp_step; clear; script_leaf.
Qed.

(** ** Facts about events *)

Lemma last_failure_app pre post :
  last_failure (pre ++ post) =
    match last_failure post with
    | Some f => Some f
    | None => last_failure pre
    end.
Proof.
  induction pre as [|ev pre IH]; simpl.
  - by destruct (last_failure post).
  - rewrite IH. by destruct (last_failure post).
Qed.

Lemma last_failure_raised pre a f post :
  is_Some (last_failure (pre ++ Raised a f :: post)).
Proof.
  rewrite last_failure_app. simpl.
  destruct (last_failure post); eauto.
Qed.

Lemma last_failure_last pre a f :
  last_failure (pre ++ [Raised a f]) = Some f.
Proof. by rewrite last_failure_app. Qed.

Lemma stops_at_failure_post pre a f post :
  stops_at_failure (pre ++ Raised a f :: post) = true →
  forallb cleanup post = true.
Proof.
  induction pre as [|ev pre IH]; simpl; [done|].
  destruct ev; try exact IH.
  rewrite forallb_app. simpl.
  intros H. apply andb_true_iff in H as [_ H].
  by apply andb_true_iff in H as [_ H].
Qed.

Lemma cleanup_only post :
  forallb cleanup post = true →
  attempts post = [] ∧ writes post = [] ∧
  calls_to builtin_open post = 0 ∧
  ∀ a, a ≠ file_close → calls_to a post = 0.
Proof.
  induction post as [|ev post IH]; simpl; [done|].
  intros H. apply andb_true_iff in H as [Hev H].
  destruct (IH H) as (IHa & IHw & IHo & IHc).
  destruct ev as [| |a|a f|]; try discriminate; destruct a; try discriminate;
    (split; [exact IHa|split; [exact IHw|split; [exact IHo|]]]);
    intros b Hb; unfold calls_to; simpl;
    (rewrite bool_decide_eq_false_2 by done); apply (IHc b Hb).
Qed.

(** ** The layout of a table *)

Lemma row_lookup (r k : nat) (row : list cell) (r' c : nat) :
  (list_to_map (imap (λ j v, ((r, k + j), v)) row) : gmap (nat * nat) cell) !! (r', c)
  = if decide (r = r' ∧ k ≤ c) then row !! (c - k) else None.
Proof.
  revert k. induction row as [|v row IH]; intros k.
  - simpl. rewrite lookup_empty. by case_decide.
  - rewrite imap_cons, list_to_map_cons.
    rewrite (imap_ext _ (λ j v, ((r, S k + j), v)))
      by (intros; simpl; do 2 f_equal; lia).
    rewrite lookup_insert, IH.
    destruct (decide (r = r')) as [->|Hr].
    2: { rewrite decide_False by (intros [=]; done).
         by rewrite !decide_False by (intros [? _]; done). }
    destruct (decide (c = k)) as [->|Hc].
    { rewrite decide_True by (f_equal; lia).
      rewrite decide_True by lia. by rewrite Nat.sub_diag. }
    rewrite decide_False by (intros [=]; lia).
    destruct (decide (k ≤ c)).
    + rewrite !decide_True by lia.
      by replace (c - k) with (S (c - S k)) by lia.
    + by rewrite !decide_False by lia.
Qed.

Lemma rows_lookup (k : nat) (rows : list (list cell)) (r c : nat) :
  (list_to_map (concat (imap (λ i row, imap (λ j v, ((k + i, 1 + j), v)) row) rows))
     : gmap (nat * nat) cell) !! (r, c)
  = if decide (k ≤ r ∧ 1 ≤ c) then rows !! (r - k) ≫= (.!! (c - 1)) else None.
Proof.
  revert k. induction rows as [|row rows IH]; intros k.
  - simpl. rewrite lookup_empty. by case_decide.
  - rewrite imap_cons. cbv beta. simpl concat. rewrite list_to_map_app, lookup_union.
    rewrite (imap_ext _ (λ i row, imap (λ j v, ((S k + i, 1 + j), v)) row))
      by (intros; simpl; apply imap_ext; intros; do 2 f_equal; lia).
    rewrite IH.
    pose proof (row_lookup (k + 0) 1 row r c) as Hrow. simpl in Hrow.
    rewrite Hrow. clear Hrow. replace (k + 0) with k by lia.
    destruct (decide (k = r)) as [->|Hne].
    + replace (r - r) with 0 by lia. simpl.
      rewrite (decide_False (P := S r ≤ r ∧ 1 ≤ c)) by lia.
      destruct (decide (1 ≤ c)).
      * rewrite !decide_True by lia. by destruct (row !! (c - 1)).
      * by rewrite !decide_False by lia.
    + rewrite (decide_False (P := k = r ∧ 1 ≤ c)) by (intros [? _]; done).
      destruct (decide (S k ≤ r ∧ 1 ≤ c)).
      * rewrite decide_True by lia.
        replace (r - k) with (S (r - S k)) by lia. simpl.
        by destruct (rows !! (r - S k) ≫= (.!! (c - 1))).
      * by rewrite decide_False by lia.
Qed.

(** Cell (i + 1, j + 1) of a table holds value [j] of row [i]; there is no
    other cell. *)
Lemma grid_of_rows_lookup (rows : list (list cell)) (i j : nat) :
  grid_of_rows rows !! (S i, S j) = rows !! i ≫= (.!! j).
Proof.
  etrans; [exact (rows_lookup 1 rows (S i) (S j))|].
  simpl. by rewrite !Nat.sub_0_r.
Qed.

Lemma grid_of_rows_origin (rows : list (list cell)) (r c : nat) :
  r = 0 ∨ c = 0 → grid_of_rows rows !! (r, c) = None.
Proof.
  intros H.
  etrans; [exact (rows_lookup 1 rows r c)|].
  apply decide_False. lia.
Qed.

(** ** Programs that do not look at the command line or the environment *)

Section ignores_args.
Context {A B : Type}.

Lemma ignores_args_ret (a : A) : ignores_args (mret a : Py A).
Proof. done. Qed.

Lemma ignores_args_throw (e : exn) : ignores_args (mthrow e : Py A).
Proof. done. Qed.

Lemma ignores_args_bind (m : Py A) (k : A → Py B) :
  ignores_args m → (∀ a, ignores_args (k a)) → ignores_args (m ≫= k).
Proof.
  intros Hm Hk env args vars st.
  unfold mbind, Py_bind, bind. rewrite Hm.
  destruct (m env st) as [[a|e] st']; [apply Hk|done].
Qed.

Lemma ignores_args_if (b : bool) (m1 m2 : Py A) :
  ignores_args m1 → ignores_args m2 → ignores_args (if b then m1 else m2).
Proof. by destruct b. Qed.

Lemma ignores_args_pair {C D} (p : C * D) (k : C → D → Py A) :
  (∀ c d, ignores_args (k c d)) → ignores_args (let '(c, d) := p in k c d).
Proof. by destruct p. Qed.

Lemma ignores_args_call (a : api) (eff : State → State) (r : A) :
  ignores_args (call a eff r).
Proof. done. Qed.

Lemma ignores_args_try (body handler : Py A) :
  ignores_args body → ignores_args handler →
  ignores_args (try_except_ImportError body handler).
Proof.
  intros Hb Hh env args vars st.
  unfold try_except_ImportError. rewrite Hb.
  destruct (body env st) as [[a|e] st']; [done|].
  destruct (isinstance_ImportError e); [apply Hh|done].
Qed.

Lemma ignores_args_with_exit (body : Py A) (exit : Py unit) :
  ignores_args body → ignores_args exit → ignores_args (with_exit body exit).
Proof.
  intros Hb He env args vars st.
  unfold with_exit. rewrite Hb.
  destruct (body env st) as [[a|e] st']; by rewrite He.
Qed.
End ignores_args.

Lemma ignores_args_import (m : string) : ignores_args (import_ m).
Proof. done. Qed.

Lemma ignores_args_open_w (name : string) : ignores_args (open_w name).
Proof. done. Qed.

Lemma ignores_args_write (f s : string) : ignores_args (write f s).
Proof. done. Qed.

Lemma ignores_args_openpyxl_save wb name : ignores_args (Openpyxl.save wb name).
Proof. done. Qed.

Lemma ignores_args_xlsxwriter_close wb : ignores_args (Xlsxwriter.close wb).
Proof. done. Qed.

Lemma ignores_args_pandas_exit w : ignores_args (Pandas.exit w).
Proof. done. Qed.

Lemma ignores_args_with_object {R} (steps : list (R → Py R)) (exit : R → Py unit) :
  Forall (λ s, ∀ r, ignores_args (s r)) steps →
  (∀ r, ignores_args (exit r)) →
  ∀ r, ignores_args (with_object steps exit r).
Proof.
  intros Hs He. induction Hs as [|s steps Hs _ IH]; intros r env args vars st; simpl.
  - apply He.
  - rewrite Hs. destruct (s r env st) as [[r'|e] st']; [apply IH|by rewrite He].
Qed.

Create HintDb ignores_args.
#[global] Hint Resolve ignores_args_ret ignores_args_throw ignores_args_call
  ignores_args_import ignores_args_open_w ignores_args_write
  ignores_args_openpyxl_save ignores_args_xlsxwriter_close ignores_args_pandas_exit
  : ignores_args.

Ltac ignores_args_step :=
  lazymatch goal with
  | |- ignores_args (mbind _ _) => apply ignores_args_bind; [|intros ?]
  | |- ignores_args (try_except_ImportError _ _) => apply ignores_args_try
  | |- ignores_args (with_exit _ _) => apply ignores_args_with_exit
  | |- ignores_args (with_open_w _ _) => unfold with_open_w
  | |- ignores_args (with_object _ _ _) =>
      apply ignores_args_with_object; [repeat constructor; intros ?|intros ?]
  | |- ignores_args (if _ then _ else _) => apply ignores_args_if
  | |- ignores_args (let '(_, _) := _ in _) => apply ignores_args_pair; intros ? ?
  | |- ignores_args _ => solve [auto with ignores_args | apply ignores_args_call]
  end.

Lemma main_ignores_args : ignores_args create_test_xlsx.main.
Proof. unfold_main. repeat ignores_args_step. Qed.

Lemma script_ignores_args : ignores_args test_data.script.
Proof. unfold_script. repeat ignores_args_step. Qed.

(** ** The fixtures, cell by cell *)

Lemma csv_text_literal :
  csv_text = "Name,Age,City,Salary
John Doe,25,New York,50000
Jane Smith,30,Los Angeles,60000
Bob Johnson,35,Chicago,70000
".
Proof. reflexivity. Qed.

Lemma fixture_workbook_names :
  sheet_name <$> fixture_workbook = ["Sheet1"; "Products"].
Proof. reflexivity. Qed.

Lemma dataframe_workbook_names :
  sheet_name <$> dataframe_workbook = ["Employees"; "Products"; "Sales"].
Proof. reflexivity. Qed.

(** Row 1 of a table is its header; data row [i] is row [i + 1]. *)
Lemma table_cell name header rows i j :
  sheet_cells (table name header rows) !! (S i, S j)
  = ((CStr <$> header) :: rows) !! i ≫= (.!! j).
Proof. apply grid_of_rows_lookup. Qed.

Example price_of_laptop :
  fixture_workbook !! 1 ≫= (λ s, sheet_cells s !! (2, 2)) = Some (CNum 999.99).
Proof. vm_compute. reflexivity. Qed.

Example no_fifth_row :
  fixture_workbook !! 0 ≫= (λ s, sheet_cells s !! (5, 1)) = None.
Proof. vm_compute. reflexivity. Qed.

(** With [index=True] the first column would hold the row labels and the
    data would start in column B; the script passes [index=False]. *)
Example index_column :
  Pandas.frame_cells {| Pandas.columns := test_data.sheet1_data |} true !! (2, 1)
    = Some (PyInt 0) ∧
  Pandas.frame_cells {| Pandas.columns := test_data.sheet1_data |} true !! (1, 2)
    = Some (PyStr "Name") ∧
  Pandas.frame_cells {| Pandas.columns := test_data.sheet1_data |} false !! (1, 1)
    = Some (PyStr "Name") ∧
  Pandas.frame_cells {| Pandas.columns := test_data.sheet1_data |} false !! (2, 1)
    = Some (PyStr "John Doe").
Proof. repeat split; vm_compute; reflexivity. Qed.

(** ** The reach of the except clause *)

(** The handler of [try ... except ImportError] is not tied to the import
    statement: it runs for an ImportError that leaves the body at any
    point, with the state the body reached. *)
Lemma try_except_ImportError_spans_body {A} (body handler : Py A) env st e st' :
  body env st = (Raise e, st') →
  isinstance_ImportError e = true →
  try_except_ImportError body handler env st = handler env st'.
Proof. unfold try_except_ImportError. by intros -> ->. Qed.

Lemma try_except_ImportError_propagates {A} (body handler : Py A) env st f st' :
  body env st = (Raise (Failure f), st') →
  try_except_ImportError body handler env st = (Raise (Failure f), st').
Proof. unfold try_except_ImportError. by intros ->. Qed.

(** ** The claims *)

(** C1.  In a run of the fallback-chain script in which openpyxl or
    xlsxwriter imports, the workbook produced is test_data.xlsx with exactly
    the two sheets "Sheet1" and "Products", holding the header and the
    three data rows of [fixture_workbook]: the run completes when no call
    fails; every run that completes has left that workbook; and so has
    every run, completed or not, that wrote the file at all. *)
Theorem fallback_chain_workbook env st :
  importable env "openpyxl" = true ∨ importable env "xlsxwriter" = true →
  (faultless env → ∃ st', create_test_xlsx.main env st = (Ok tt, st')) ∧
  (∀ st', create_test_xlsx.main env st = (Ok tt, st') →
     fs st' !! xlsx_path env = Some (XlsxFile (now env) fixture_workbook)) ∧
  (xlsx_path env ∈ writes (events_since st (create_test_xlsx.main env st).2) →
     fs (create_test_xlsx.main env st).2 !! xlsx_path env
     = Some (XlsxFile (now env) fixture_workbook)).
Proof.
  intros Himp. split; [apply main_completes|]. split.
  - intros st' Hrun.
    destruct (main_Ok _ _ _ Hrun) as [_ Hfs _ _|_ _ Hfs _ _|Ha Hb _ _ _].
    + rewrite Hfs. apply lookup_insert_eq.
    + rewrite Hfs. apply lookup_insert_eq.
    + destruct Himp; congruence.
  - intros Hin.
    destruct (run_stage _ _ _ _ (main_runs env st))
      as [_ Hw _ _|_ _ Hw _ _|_ _ _ Hw _ _|Ha Hb _ _ _].
    + rewrite Hw in Hin. by apply elem_of_nil in Hin.
    + destruct Hw as [Hw|[_ Hfs]]; [|done].
      rewrite Hw in Hin. by apply elem_of_nil in Hin.
    + destruct Hw as [Hw|[_ Hfs]]; [|done].
      rewrite Hw in Hin. by apply elem_of_nil in Hin.
    + destruct Himp; congruence.
Qed.

Lemma fallback_chain_workbook_witness :
  (importable (world ["xlsxwriter"] no_faults) "openpyxl" = true ∨
   importable (world ["xlsxwriter"] no_faults) "xlsxwriter" = true) ∧
  fs (create_test_xlsx.main (world ["xlsxwriter"] no_faults) empty_disk).2
    !! "/home/user/project/test_data.xlsx"
  = Some (XlsxFile 1700000000%Z fixture_workbook).
Proof.
  split; [right; reflexivity|].
  apply (proj1 (proj2 (fallback_chain_workbook (world ["xlsxwriter"] no_faults) empty_disk
                         (or_intror eq_refl)))).
  vm_compute. reflexivity.
Defined.

(** C2 (counterexample).  Without pandas the dataframe script stops at its
    first line with an uncaught ModuleNotFoundError and writes nothing. *)
Lemma dataframe_script_without_pandas :
  (test_data.script (world ["openpyxl"] no_faults) empty_disk).1
    = Raise (ModuleNotFoundError "pandas") ∧
  fs (test_data.script (world ["openpyxl"] no_faults) empty_disk).2 = ∅.
Proof. split; vm_compute; reflexivity. Qed.

(** C2 (amended).  Every run of the dataframe script in which pandas and
    its openpyxl engine import and no call fails completes and leaves in
    test_data.xlsx a workbook with exactly the three sheets "Employees",
    "Products" and "Sales", in that order, each with its header in row 1,
    its first column in column A (no index column) and three data rows. *)
Theorem dataframe_workbook_produced env st :
  importable env "pandas" = true →
  importable env "openpyxl" = true →
  faultless env →
  ∃ st', test_data.script env st = (Ok tt, st') ∧
         fs st' !! xlsx_path env = Some (XlsxFile (now env) dataframe_workbook).
Proof.
  intros Hp Ho Hok.
  destruct (script_completes env st Hp Ho Hok) as [st' Hrun].
  exists st'. split; [done|].
  destruct (script_Ok _ _ _ Hrun) as (_ & _ & Hfs & _).
  rewrite Hfs. apply lookup_insert_eq.
Qed.

Lemma dataframe_workbook_produced_witness :
  ∃ st', test_data.script (world ["pandas"; "openpyxl"] no_faults) empty_disk = (Ok tt, st') ∧
         fs st' !! "/home/user/project/test_data.xlsx"
         = Some (XlsxFile 1700000000 dataframe_workbook).
Proof.
  apply (dataframe_workbook_produced (world ["pandas"; "openpyxl"] no_faults) empty_disk);
    [reflexivity|reflexivity|intros n a; reflexivity].
Defined.

(** C3.  In a run of the fallback-chain script in which neither openpyxl
    nor xlsxwriter imports, test_data.csv holds exactly the header line and
    the three data lines of [csv_text]: the run completes when no call
    fails, and every run that completes has written that text. *)
Theorem csv_fallback_content env st :
  importable env "openpyxl" = false →
  importable env "xlsxwriter" = false →
  (faultless env → ∃ st', create_test_xlsx.main env st = (Ok tt, st')) ∧
  (∀ st', create_test_xlsx.main env st = (Ok tt, st') →
     fs st' !! csv_path env = Some (TextFile csv_text)).
Proof.
  intros Ha Hb. split; [apply main_completes|].
  intros st' Hrun.
  destruct (main_Ok _ _ _ Hrun) as [Ha' _ _ _|_ Hb' _ _ _|_ _ Hfs _ _];
    [congruence..|].
  rewrite Hfs. apply lookup_insert_eq.
Qed.

Lemma csv_fallback_content_witness :
  fs (create_test_xlsx.main (world [] no_faults) empty_disk).2
    !! "/home/user/project/test_data.csv"
  = Some (TextFile "Name,Age,City,Salary
John Doe,25,New York,50000
Jane Smith,30,Los Angeles,60000
Bob Johnson,35,Chicago,70000
").
Proof.
  apply (proj2 (csv_fallback_content (world [] no_faults) empty_disk eq_refl eq_refl)).
  vm_compute. reflexivity.
Defined.

Lemma no_guidance_in lines full :
  lines `prefix_of` full →
  Forall (λ l, l ∉ guidance) full →
  ¬ ∃ l, l ∈ guidance ∧ l ∈ lines.
Proof.
  intros [k ->] Hfull (l & Hg & Hl).
  rewrite Forall_forall in Hfull.
  apply (Hfull l); [|done].
  apply elem_of_app. by left.
Qed.

Ltac not_guidance := repeat constructor; by apply (bool_decide_unpack _).

(** C4.  In every run [main] tries openpyxl first and once; it tries
    xlsxwriter, once, only when openpyxl did not import; it opens the CSV
    file, at most once, and prints the installation guidance only when
    neither imported.  Nothing is tried twice. *)
Theorem fallback_order env st :
  let evs := events_since st (create_test_xlsx.main env st).2 in
  let lines := printed_since st (create_test_xlsx.main env st).2 in
  (attempts evs = [] ∨ attempts evs = ["openpyxl"] ∨
   attempts evs = ["openpyxl"; "xlsxwriter"]) ∧
  ("xlsxwriter" ∈ attempts evs → importable env "openpyxl" = false) ∧
  (0 < calls_to builtin_open evs ∨ (∃ l, l ∈ guidance ∧ l ∈ lines) →
     importable env "openpyxl" = false ∧ importable env "xlsxwriter" = false) ∧
  calls_to builtin_open evs ≤ 1.
Proof.
  intros evs lines.
  destruct (run_stage _ _ _ _ (main_runs env st))
    as [Ha _ Ho Hl|Hi Ha _ Ho Hl|Hi Hj Ha _ Ho Hl|Hi Hj Ha _ Ho];
    fold evs in Ha, Ho; try fold lines in Hl; rewrite Ha.
  - split; [auto|]. split; [by intros ?%elem_of_nil|].
    split; [|lia].
    intros [?|Hg]; [lia|].
    destruct (no_guidance_in _ _ Hl); [not_guidance|done].
  - split; [auto|]. split; [by intros [=]%list_elem_of_singleton|].
    split; [|lia].
    intros [?|Hg]; [lia|].
    destruct (no_guidance_in _ _ Hl); [not_guidance|done].
  - split; [auto|]. split; [done|].
    split; [|lia].
    intros [?|Hg]; [lia|].
    destruct (no_guidance_in _ _ Hl); [not_guidance|done].
  - split; [auto|]. split; [done|]. split; [done|done].
Qed.

Lemma fallback_order_witness :
  importable (world [] no_faults) "openpyxl" = false ∧
  importable (world [] no_faults) "xlsxwriter" = false.
Proof.
  apply (proj1 (proj2 (proj2 (fallback_order (world [] no_faults) empty_disk)))).
  left. vm_compute. lia.
Defined.



(** C6.  In every run of the fallback-chain script, a call that fails with
    anything but a missing library ends the run with an uncaught failure,
    that of the call when it is the last event of the run; after the failed
    call no import is attempted, nothing is written and no file is opened:
    the script falls back neither to the next library nor to the CSV.  All
    that can follow is the closing of the CSV file. *)
Theorem failures_propagate env st pre a f post :
  events_since st (create_test_xlsx.main env st).2 = pre ++ Raised a f :: post →
  (∃ f', (create_test_xlsx.main env st).1 = Raise (Failure f')) ∧
  (post = [] → (create_test_xlsx.main env st).1 = Raise (Failure f)) ∧
  attempts post = [] ∧ writes post = [] ∧
  (∀ b, b ≠ file_close → calls_to b post = 0).
Proof.
  intros Hev.
  destruct (main_runs env st) as [Hres Hstop _ _].
  rewrite Hev in Hres, Hstop.
  split; [|split].
  - destruct (last_failure_raised pre a f post) as [f' Hf'].
    rewrite Hf' in Hres. eauto.
  - intros ->. by rewrite last_failure_last in Hres.
  - apply stops_at_failure_post in Hstop.
    destruct (cleanup_only _ Hstop) as (? & ? & _ & ?). done.
Qed.

Lemma failures_propagate_witness :
  (create_test_xlsx.main
     (world ["openpyxl"; "xlsxwriter"] (failing openpyxl_save PermissionError))
     empty_disk).1
  = Raise (Failure PermissionError).
Proof.
  refine (proj1 (proj2
    (failures_propagate
       (world ["openpyxl"; "xlsxwriter"] (failing openpyxl_save PermissionError))
       empty_disk
       ([Called builtin_print; Imported "openpyxl"] ++
        (Called <$> [openpyxl_Workbook; openpyxl_active; openpyxl_set_title;
                     openpyxl_append; openpyxl_append; openpyxl_append; openpyxl_append;
                     openpyxl_create_sheet;
                     openpyxl_append; openpyxl_append; openpyxl_append; openpyxl_append]))
       openpyxl_save PermissionError [] _)) eq_refl).
  vm_compute. reflexivity.
Defined.


(** C7.  The output of either script is a function of which libraries
    import: two completed runs of the fallback-chain script under the same
    availability of openpyxl and xlsxwriter, whatever their clocks, their
    working directories and the files already there, leave either the same
    CSV text, byte for byte, or workbooks that differ at most in the time
    stamp; so do two completed runs of the dataframe script.  A second run
    in the same world overwrites the output of the first with the same
    content and leaves the file system as the first run left it. *)
Theorem deterministic_output :
  (∀ env1 env2 st1 st2 st1' st2',
     importable env1 "openpyxl" = importable env2 "openpyxl" →
     importable env1 "xlsxwriter" = importable env2 "xlsxwriter" →
     create_test_xlsx.main env1 st1 = (Ok tt, st1') →
     create_test_xlsx.main env2 st2 = (Ok tt, st2') →
     (fs st1' !! csv_path env1 = Some (TextFile csv_text) ∧
      fs st2' !! csv_path env2 = Some (TextFile csv_text) ∧
      importable env1 "openpyxl" = false ∧ importable env1 "xlsxwriter" = false) ∨
     (∃ f1 f2,
        fs st1' !! xlsx_path env1 = Some f1 ∧
        fs st2' !! xlsx_path env2 = Some f2 ∧
        same_content f1 f2 ∧ (now env1 = now env2 → f1 = f2))) ∧
  (∀ env1 env2 st1 st2 st1' st2',
     test_data.script env1 st1 = (Ok tt, st1') →
     test_data.script env2 st2 = (Ok tt, st2') →
     ∃ f1 f2,
       fs st1' !! xlsx_path env1 = Some f1 ∧
       fs st2' !! xlsx_path env2 = Some f2 ∧
       same_content f1 f2 ∧ (now env1 = now env2 → f1 = f2)) ∧
  (∀ env st st' st'',
     create_test_xlsx.main env st = (Ok tt, st') →
     create_test_xlsx.main env st' = (Ok tt, st'') →
     fs st'' = fs st') ∧
  (∀ env st st' st'',
     test_data.script env st = (Ok tt, st') →
     test_data.script env st' = (Ok tt, st'') →
     fs st'' = fs st').
Proof.
  split; [|split; [|split]].
  - intros env1 env2 st1 st2 st1' st2' Ho Hx Hrun1 Hrun2.
    destruct (main_Ok _ _ _ Hrun1) as [Ha1 Hfs1 _ _|Ha1 Hb1 Hfs1 _ _|Ha1 Hb1 Hfs1 _ _];
      destruct (main_Ok _ _ _ Hrun2) as [Ha2 Hfs2 _ _|Ha2 Hb2 Hfs2 _ _|Ha2 Hb2 Hfs2 _ _];
      try congruence.
    + right. eexists _, _. rewrite Hfs1, Hfs2, !lookup_insert_eq.
      repeat split. by intros ->.
    + right. eexists _, _. rewrite Hfs1, Hfs2, !lookup_insert_eq.
      repeat split. by intros ->.
    + left. by rewrite Hfs1, Hfs2, !lookup_insert_eq.
  - intros env1 env2 st1 st2 st1' st2' Hrun1 Hrun2.
    destruct (script_Ok _ _ _ Hrun1) as (_ & _ & Hfs1 & _).
    destruct (script_Ok _ _ _ Hrun2) as (_ & _ & Hfs2 & _).
    eexists _, _. rewrite Hfs1, Hfs2, !lookup_insert_eq.
    repeat split. by intros ->.
  - intros env st st' st'' Hrun1 Hrun2.
    destruct (main_Ok _ _ _ Hrun1) as [Ha1 Hfs1 _ _|Ha1 Hb1 Hfs1 _ _|Ha1 Hb1 Hfs1 _ _];
      destruct (main_Ok _ _ _ Hrun2) as [Ha2 Hfs2 _ _|Ha2 Hb2 Hfs2 _ _|Ha2 Hb2 Hfs2 _ _];
      try congruence;
      by rewrite Hfs2, Hfs1, insert_insert_eq.
  - intros env st st' st'' Hrun1 Hrun2.
    destruct (script_Ok _ _ _ Hrun1) as (_ & _ & Hfs1 & _).
    destruct (script_Ok _ _ _ Hrun2) as (_ & _ & Hfs2 & _).
    by rewrite Hfs2, Hfs1, insert_insert_eq.
Qed.

Lemma deterministic_output_witness :
  fs (create_test_xlsx.main (world [] no_faults) empty_disk).2
    !! "/home/user/project/test_data.csv" = Some (TextFile csv_text) ∧
  fs (create_test_xlsx.main elsewhere stale_disk).2
    !! "/tmp/test_data.csv" = Some (TextFile csv_text).
Proof.
  destruct (proj1 deterministic_output (world [] no_faults) elsewhere
              empty_disk stale_disk
              (create_test_xlsx.main (world [] no_faults) empty_disk).2
              (create_test_xlsx.main elsewhere stale_disk).2
              eq_refl eq_refl)
    as [(H1 & H2 & _)|(f1 & f2 & H1 & _)].
  - vm_compute. reflexivity.
  - vm_compute. reflexivity.
  - exact (conj H1 H2).
  - vm_compute in H1. discriminate H1.
Defined.

(** C8.  Whatever happens in a run, the fallback-chain script writes to no
    path but test_data.xlsx and test_data.csv in the working directory, the
    latter only when neither library imports, and the dataframe script to
    none but test_data.xlsx there; every other file is left as it was.  A
    completed run has put its output under one of these names.  Neither
    script reads the command line or an environment variable: the run is
    the same for every [argv] and [environ]. *)
Theorem output_location env st :
  (∀ p, p ∈ writes (events_since st (create_test_xlsx.main env st).2) →
        p = xlsx_path env ∨
        (p = csv_path env ∧ importable env "openpyxl" = false ∧
         importable env "xlsxwriter" = false)) ∧
  (∀ p, p ≠ xlsx_path env → p ≠ csv_path env →
        fs (create_test_xlsx.main env st).2 !! p = fs st !! p) ∧
  (∀ st', create_test_xlsx.main env st = (Ok tt, st') →
        is_Some (fs st' !! xlsx_path env) ∨ is_Some (fs st' !! csv_path env)) ∧
  (∀ p, p ∈ writes (events_since st (test_data.script env st).2) →
        p = xlsx_path env) ∧
  (∀ p, p ≠ xlsx_path env → fs (test_data.script env st).2 !! p = fs st !! p) ∧
  (∀ st', test_data.script env st = (Ok tt, st') → is_Some (fs st' !! xlsx_path env)) ∧
  xlsx_path env = cwd env +:+ "/test_data.xlsx" ∧
  csv_path env = cwd env +:+ "/test_data.csv" ∧
  (∀ args vars,
     create_test_xlsx.main (with_args env args vars) st = create_test_xlsx.main env st) ∧
  (∀ args vars,
     test_data.script (with_args env args vars) st = test_data.script env st).
Proof.
  destruct (main_runs env st) as [_ _ Hstage Hframe].
  destruct (script_runs env st) as [Hsw _ Hsf].
  split_and!.
  - intros p Hp.
    destruct Hstage as [_ Hw _ _|_ _ Hw _ _|_ _ _ Hw _ _|Ha Hb _ Hw _].
    + rewrite Hw in Hp. by apply elem_of_nil in Hp.
    + destruct Hw as [Hw|[Hw _]]; rewrite Hw in Hp.
      * by apply elem_of_nil in Hp.
      * left. by apply list_elem_of_singleton in Hp.
    + destruct Hw as [Hw|[Hw _]]; rewrite Hw in Hp.
      * by apply elem_of_nil in Hp.
      * left. by apply list_elem_of_singleton in Hp.
    + right. rewrite Forall_forall in Hw. auto.
  - exact Hframe.
  - intros st' Hrun.
    destruct (main_Ok _ _ _ Hrun) as [_ Hfs _ _|_ _ Hfs _ _|_ _ Hfs _ _];
      rewrite Hfs; [left|left|right]; rewrite lookup_insert_eq; eauto.
  - intros p Hp. destruct Hsw as [Hw|Hw]; rewrite Hw in Hp.
    + by apply elem_of_nil in Hp.
    + by apply list_elem_of_singleton in Hp.
  - exact Hsf.
  - intros st' Hrun.
    destruct (script_Ok _ _ _ Hrun) as (_ & _ & Hfs & _).
    rewrite Hfs, lookup_insert_eq. eauto.
  - reflexivity.
  - reflexivity.
  - intros args vars. apply main_ignores_args.
  - intros args vars. apply script_ignores_args.
Qed.

Lemma output_location_witness :
  "/home/user/project/test_data.csv" = "/home/user/project/test_data.xlsx" ∨
  "/home/user/project/test_data.csv" = "/home/user/project/test_data.csv" ∧
  importable (world [] no_faults) "openpyxl" = false ∧
  importable (world [] no_faults) "xlsxwriter" = false.
Proof.
  apply (proj1 (output_location (world [] no_faults) empty_disk)
           "/home/user/project/test_data.csv").
  vm_compute. constructor.
Defined.

(** C9.  The openpyxl branch and the xlsxwriter branch write the same
    workbook: when both helpers succeed, in whatever worlds, the two files
    hold one and the same list of sheets, named "Sheet1" and "Products" in
    that order, with every cell equal at every row and column. *)
Theorem branches_write_same_workbook env1 st1 env2 st2 :
  (create_test_xlsx.create_with_openpyxl env1 st1).1 = Ok true →
  (create_test_xlsx.create_with_xlsxwriter env2 st2).1 = Ok true →
  ∃ book,
    fs (create_test_xlsx.create_with_openpyxl env1 st1).2 !! xlsx_path env1
      = Some (XlsxFile (now env1) book) ∧
    fs (create_test_xlsx.create_with_xlsxwriter env2 st2).2 !! xlsx_path env2
      = Some (XlsxFile (now env2) book) ∧
    sheet_name <$> book = ["Sheet1"; "Products"].
Proof.
  intros Ho Hx.
  pose proof (create_with_openpyxl_runs env1 st1) as Ro.
  pose proof (create_with_xlsxwriter_runs env2 st2) as Rx.
  rewrite Ho in Ro. rewrite Hx in Rx.
  inversion Ro as [|st1' _ Hfs1 _ _ _|]; subst.
  inversion Rx as [|st2' _ Hfs2 _ _ _|]; subst.
  exists fixture_workbook.
  rewrite Hfs1, Hfs2, !lookup_insert_eq. done.
Qed.

Lemma branches_write_same_workbook_witness :
  ∃ book,
    fs (create_test_xlsx.create_with_openpyxl (world ["openpyxl"] no_faults) empty_disk).2
      !! "/home/user/project/test_data.xlsx" = Some (XlsxFile 1700000000 book) ∧
    fs (create_test_xlsx.create_with_xlsxwriter elsewhere_xlsxwriter stale_disk).2
      !! "/tmp/test_data.xlsx" = Some (XlsxFile 1800000000 book) ∧
    sheet_name <$> book = ["Sheet1"; "Products"].
Proof.
  apply (branches_write_same_workbook (world ["openpyxl"] no_faults) empty_disk
           elsewhere_xlsxwriter stale_disk); vm_compute; reflexivity.
Defined.



(** * Further properties of the two scripts *)

(** ** Every run of the CSV fallback *)

Ltac csv_leaf :=
  lazymatch goal with
  | |- csv_run ?env ?st ?r ?st' =>
      let E := fresh "E" in
      let L := fresh "L" in
      eassert (events_since st st' = _) as E by since_tac;
      eassert (printed_since st st' = _) as L by since_tac;
      split;
      [ rewrite E; reflexivity
      | rewrite E; reflexivity
      | rewrite E; reflexivity
      | rewrite E; reflexivity
      | rewrite E; vm_compute; lia
      | rewrite E; reflexivity
      | rewrite E; state_simpl; csv_tac; reflexivity
      | rewrite E; split; [vm_compute; lia|first [discriminate|intros _; split; reflexivity]]
      | rewrite E, L; split; [prefix_tac|first [done|reflexivity]] ]
  end.

Lemma create_csv_fallback_runs env st :
  csv_run env st (create_test_xlsx.create_csv_fallback env st).1
    (create_test_xlsx.create_csv_fallback env st).2.
Proof.
  change (wp create_test_xlsx.create_csv_fallback env st (csv_run env st)).
  unfold create_test_xlsx.create_csv_fallback.
  repeat wp_step.
  all: csv_leaf.
Qed.

Lemma create_csv_fallback_completes env st :
  faultless env → (create_test_xlsx.create_csv_fallback env st).1 = Ok tt.
Proof.
  intros Hok.
  change (wp create_test_xlsx.create_csv_fallback env st (λ r _, r = Ok tt)).
  unfold create_test_xlsx.create_csv_fallback.
  repeat wp_step;
    try match goal with
        | H : fault _ _ _ = Some _ |- _ => rewrite Hok in H; discriminate H
        end;
    reflexivity.
Qed.

Lemma closes_after_failed_write_post pre f post :
  closes_after_failed_write (pre ++ Raised file_write f :: post) = true →
  post = [Called file_close] ∨ ∃ f', post = [Raised file_close f'].
Proof.
  induction pre as [|ev pre IH]; simpl.
  - destruct post as [|[| |[]|[] f'|] [|? ?]]; try discriminate; eauto.
  - destruct ev as [| |a|a f0|]; try exact IH.
    destruct a; try exact IH.
    intros H. destruct pre as [|ev' pre']; simpl in H; [discriminate H|].
    destruct ev' as [| |[]|[] ?|]; try discriminate H; destruct pre'; discriminate H.
Qed.

(** ** What [main] prints *)

(** A line the run did not print, or what the line reports. *)
Ltac not_printed :=
  let H := fresh in
  intros H; exfalso; revert H;
  apply (bool_decide_unpack (_ ∉ _)); vm_compute; exact I.

Ltac file_tac :=
  state_simpl; book_tac;
  repeat (rewrite ?lookup_insert_eq; cbn [text_of]);
  reflexivity.

Ltac reported :=
  first [ not_printed | intros _; split_and!; first [assumption|file_tac] ].

Ltac report_leaf :=
  lazymatch goal with
  | |- main_report ?env ?st ?st' =>
      let E := fresh "E" in
      let L := fresh "L" in
      eassert (events_since st st' = _) as E by since_tac;
      eassert (printed_since st st' = _) as L by since_tac;
      split;
      [ rewrite E; reflexivity
      | rewrite E; reflexivity
      | rewrite L; first [left; reflexivity|right; reflexivity]
      | rewrite L; reported
      | rewrite L; reported
      | rewrite L; reported ]
  end.

Lemma main_reports env st :
  main_report env st (create_test_xlsx.main env st).2.
Proof.
  change (wp create_test_xlsx.main env st (λ _ st', main_report env st st')).
  unfold_main.
  repeat wp_step.
  all: report_leaf.
Qed.

(** ** Every run of a helper *)

(** A premise about the events of the run that is false, or the
    conclusion. *)
Ltac by_events tac :=
  let H := fresh in
  intros H;
  first [ solve [ vm_compute in H; first [discriminate H|lia|done] ] | clear H; tac ].

Ltac helper_run_leaf :=
  lazymatch goal with
  | |- helper_run _ _ _ ?env ?st ?r ?st' =>
      let E := fresh "E" in
      let L := fresh "L" in
      eassert (events_since st st' = _) as E by since_tac;
      eassert (printed_since st st' = _) as L by since_tac;
      split;
      [ rewrite E; reflexivity
      | rewrite E; vm_compute; lia
      | rewrite E, L;
        by_events ltac:(split_and!; [state_simpl; reflexivity|reflexivity|done])
      | rewrite E, L;
        by_events ltac:(split_and!;
            [ state_simpl; book_tac; reflexivity
            | reflexivity
            | first [ left; split; reflexivity
                    | right; eexists; split_and!; reflexivity ] ]) ]
  end.

Lemma create_with_openpyxl_every_run env st :
  helper_run "openpyxl" openpyxl_save "✅ Created test_data.xlsx using openpyxl" env st
    (create_test_xlsx.create_with_openpyxl env st).1
    (create_test_xlsx.create_with_openpyxl env st).2.
Proof.
  change (wp create_test_xlsx.create_with_openpyxl env st
            (helper_run "openpyxl" openpyxl_save
               "✅ Created test_data.xlsx using openpyxl" env st)).
  unfold create_test_xlsx.create_with_openpyxl.
  repeat wp_step; helper_run_leaf.
Qed.

Lemma create_with_xlsxwriter_every_run env st :
  helper_run "xlsxwriter" xlsxwriter_close "✅ Created test_data.xlsx using xlsxwriter" env st
    (create_test_xlsx.create_with_xlsxwriter env st).1
    (create_test_xlsx.create_with_xlsxwriter env st).2.
Proof.
  change (wp create_test_xlsx.create_with_xlsxwriter env st
            (helper_run "xlsxwriter" xlsxwriter_close
               "✅ Created test_data.xlsx using xlsxwriter" env st)).
  unfold create_test_xlsx.create_with_xlsxwriter.
  repeat wp_step; helper_run_leaf.
Qed.

(** ** Every run of the dataframe script *)

Ltac dataframe_leaf :=
  lazymatch goal with
  | |- dataframe_run ?env ?st ?r ?st' =>
      let E := fresh "E" in
      let L := fresh "L" in
      eassert (events_since st st' = _) as E by since_tac;
      eassert (printed_since st st' = _) as L by since_tac;
      split;
      [ rewrite E; reflexivity
      | rewrite E, L;
        first [ discriminate
              | intros ? [= <-]; split_and!; first [reflexivity|state_simpl; reflexivity] ]
      | rewrite E; reflexivity
      | rewrite E; vm_compute; lia
      | rewrite E;
        by_events ltac:(split_and!; [state_simpl; reflexivity|reflexivity|done])
      | rewrite L; prefix_tac
      | rewrite L;
        first [ done
              | intros _; split_and!;
                first [ assumption
                      | state_simpl; dataframe_book_tac; apply lookup_insert_eq ] ]
      | rewrite L; first [discriminate|reflexivity] ]
  end.

Lemma script_every_run env st :
  dataframe_run env st (test_data.script env st).1 (test_data.script env st).2.
Proof.
  change (wp test_data.script env st (dataframe_run env st)).
  unfold_script.
  repeat wp_step.
  all: dataframe_leaf.
Qed.

Lemma stops_at_failure_but_post ok pre a f post :
  stops_at_failure_but ok (pre ++ Raised a f :: post) = true →
  forallb ok post = true.
Proof.
  induction pre as [|ev pre IH]; simpl; [done|].
  destruct ev; try exact IH.
  rewrite forallb_app. simpl.
  intros H. apply andb_true_iff in H as [_ H].
  by apply andb_true_iff in H as [_ H].
Qed.

Lemma writer_exit_only post :
  forallb writer_exit post = true →
  attempts post = [] ∧ ∀ a, a ≠ pandas_ExcelWriter_exit → calls_to a post = 0.
Proof.
  induction post as [|ev post IH]; simpl; [done|].
  intros H. apply andb_true_iff in H as [Hev H].
  destruct (IH H) as [IHa IHc].
  destruct ev as [| |a|a f|]; try discriminate; try destruct a; try discriminate;
    (split; [exact IHa|]); intros b Hb; unfold calls_to; simpl;
    rewrite ?bool_decide_eq_false_2 by done; apply (IHc b Hb).
Qed.

(** ** Programs that look at some modules only *)

Section looks_only_at.
Context {A B : Type} (libs : list string).

Lemma looks_only_at_ret (a : A) : looks_only_at libs (mret a : Py A).
Proof. done. Qed.

Lemma looks_only_at_bind (m : Py A) (k : A → Py B) :
  looks_only_at libs m → (∀ a, looks_only_at libs (k a)) → looks_only_at libs (m ≫= k).
Proof.
  intros Hm Hk env1 env2 st Hw.
  unfold mbind, Py_bind, bind. rewrite (Hm env1 env2 st Hw).
  destruct (m env2 st) as [[a|e] st']; [by apply Hk|done].
Qed.

Lemma looks_only_at_if (b : bool) (m1 m2 : Py A) :
  looks_only_at libs m1 → looks_only_at libs m2 →
  looks_only_at libs (if b then m1 else m2).
Proof. by destruct b. Qed.

Lemma looks_only_at_pair {C D} (p : C * D) (k : C → D → Py A) :
  (∀ c d, looks_only_at libs (k c d)) → looks_only_at libs (let '(c, d) := p in k c d).
Proof. by destruct p. Qed.

Lemma looks_only_at_call (a : api) (eff : State → State) (r : A) :
  looks_only_at libs (call a eff r).
Proof. intros env1 env2 st (_ & Hf & _). unfold call. by rewrite Hf. Qed.

Lemma looks_only_at_try (body handler : Py A) :
  looks_only_at libs body → looks_only_at libs handler →
  looks_only_at libs (try_except_ImportError body handler).
Proof.
  intros Hb Hh env1 env2 st Hw.
  unfold try_except_ImportError. rewrite (Hb env1 env2 st Hw).
  destruct (body env2 st) as [[a|e] st']; [done|].
  destruct (isinstance_ImportError e); [by apply Hh|done].
Qed.

Lemma looks_only_at_with_exit (body : Py A) (exit : Py unit) :
  looks_only_at libs body → looks_only_at libs exit →
  looks_only_at libs (with_exit body exit).
Proof.
  intros Hb He env1 env2 st Hw.
  unfold with_exit. rewrite (Hb env1 env2 st Hw).
  destruct (body env2 st) as [[a|e] st']; by rewrite (He env1 env2 st' Hw).
Qed.
End looks_only_at.

Section looks_only_at_calls.
Context (libs : list string).

Lemma looks_only_at_import (m : string) :
  m ∈ libs → looks_only_at libs (import_ m).
Proof. intros Hm env1 env2 st (Hi & _). unfold import_. by rewrite (Hi m Hm). Qed.

Lemma looks_only_at_open_w (name : string) : looks_only_at libs (open_w name).
Proof.
  intros env1 env2 st (_ & Hf & Hc & _). unfold open_w, call. by rewrite Hf, Hc.
Qed.

Lemma looks_only_at_write (f s : string) : looks_only_at libs (write f s).
Proof. intros env1 env2 st (_ & Hf & _). unfold write, call. by rewrite Hf. Qed.

Lemma looks_only_at_openpyxl_save wb name : looks_only_at libs (Openpyxl.save wb name).
Proof.
  intros env1 env2 st (_ & Hf & Hc & Hn). unfold Openpyxl.save, call.
  by rewrite Hf, Hc, Hn.
Qed.

Lemma looks_only_at_xlsxwriter_close wb : looks_only_at libs (Xlsxwriter.close wb).
Proof.
  intros env1 env2 st (_ & Hf & Hc & Hn). unfold Xlsxwriter.close, call.
  by rewrite Hf, Hc, Hn.
Qed.

Lemma looks_only_at_pandas_exit w : looks_only_at libs (Pandas.exit w).
Proof.
  intros env1 env2 st (_ & Hf & Hc & Hn). unfold Pandas.exit, call.
  by rewrite Hf, Hc, Hn.
Qed.

Lemma looks_only_at_with_object {R} (steps : list (R → Py R)) (exit : R → Py unit) :
  Forall (λ s, ∀ r, looks_only_at libs (s r)) steps →
  (∀ r, looks_only_at libs (exit r)) →
  ∀ r, looks_only_at libs (with_object steps exit r).
Proof.
  intros Hs He. induction Hs as [|s steps Hs _ IH]; intros r env1 env2 st Hw; simpl.
  - by apply He.
  - rewrite (Hs r env1 env2 st Hw).
    destruct (s r env2 st) as [[r'|e] st']; [by apply IH|by rewrite (He r env1 env2 st' Hw)].
Qed.
End looks_only_at_calls.

Ltac looks_only_at_step :=
  lazymatch goal with
  | |- looks_only_at _ (mret _) => apply looks_only_at_ret
  | |- looks_only_at _ (mthrow _) => done
  | |- looks_only_at _ (mbind _ _) => apply looks_only_at_bind; [|intros ?]
  | |- looks_only_at _ (try_except_ImportError _ _) => apply looks_only_at_try
  | |- looks_only_at _ (with_exit _ _) => apply looks_only_at_with_exit
  | |- looks_only_at _ (with_open_w _ _) => unfold with_open_w
  | |- looks_only_at _ (with_object _ _ _) =>
      apply looks_only_at_with_object; [repeat constructor; intros ?|intros ?]
  | |- looks_only_at _ (if _ then _ else _) => apply looks_only_at_if
  | |- looks_only_at _ (let '(_, _) := _ in _) => apply looks_only_at_pair; intros ? ?
  | |- looks_only_at _ (import_ _) =>
      apply looks_only_at_import; apply (bool_decide_unpack _); vm_compute; exact I
  | |- looks_only_at _ (open_w _) => apply looks_only_at_open_w
  | |- looks_only_at _ (write _ _) => apply looks_only_at_write
  | |- looks_only_at _ (Openpyxl.save _ _) => apply looks_only_at_openpyxl_save
  | |- looks_only_at _ (Xlsxwriter.close _) => apply looks_only_at_xlsxwriter_close
  | |- looks_only_at _ (Pandas.exit _) => apply looks_only_at_pandas_exit
  | |- looks_only_at _ _ => apply looks_only_at_call
  end.

Lemma create_with_openpyxl_looks_only_at :
  looks_only_at ["openpyxl"] create_test_xlsx.create_with_openpyxl.
Proof. unfold create_test_xlsx.create_with_openpyxl. repeat looks_only_at_step. Qed.

(** ** The CSV form of a table *)

Example str_of_cell_integer : str_of_cell (CNum 50000) = Some "50000".
Proof. vm_compute. reflexivity. Qed.

Example str_of_cell_fraction : str_of_cell (CNum 999.99) = None.
Proof. vm_compute. reflexivity. Qed.

(** ** The properties *)

(** X1.  [create_csv_fallback], called in any world and on any disk,
    imports nothing.  When [open] fails the disk is left as it was.  When
    the file was closed it holds exactly the lines whose [write] returned,
    the first lines of the table in order and whole, whatever
    test_data.csv held before; there are at most four.  A run that returns
    has written all four, and a run in which no call fails returns, also
    where openpyxl or xlsxwriter would import. *)
Theorem csv_fallback_file env st :
  let r := (create_test_xlsx.create_csv_fallback env st).1 in
  let st' := (create_test_xlsx.create_csv_fallback env st).2 in
  let evs := events_since st st' in
  attempts evs = [] ∧
  (succeeded builtin_open evs = 0 → fs st' = fs st) ∧
  (succeeded file_close evs = 1 →
     fs st' = <[csv_path env := TextFile (csv_prefix (succeeded file_write evs))]> (fs st)) ∧
  succeeded file_write evs ≤ 4 ∧
  (r = Ok tt → fs st' = <[csv_path env := TextFile csv_text]> (fs st)) ∧
  (faultless env → r = Ok tt).
Proof.
  intros r st' evs.
  destruct (create_csv_fallback_runs env st) as [_ Hi _ _ Hc _ Hf [Hk Hd] _].
  fold st' evs in Hi, Hc, Hf, Hk, Hd. fold r in Hd.
  split_and!.
  - exact Hi.
  - intros H0. by rewrite decide_True in Hf.
  - intros H1. by rewrite decide_False in Hf by lia.
  - exact Hk.
  - intros Hr. destruct (Hd Hr) as [Ho Hw].
    rewrite decide_False in Hf by lia. by rewrite Hw in Hf.
  - apply create_csv_fallback_completes.
Qed.

Lemma csv_fallback_file_witness :
  fs (create_test_xlsx.create_csv_fallback disk_full stale_disk).2 !! "/tmp/test_data.csv"
  = Some (TextFile "Name,Age,City,Salary
John Doe,25,New York,50000
").
Proof.
  rewrite (proj1 (proj2 (proj2
             (csv_fallback_file disk_full stale_disk)))).
  - vm_compute. reflexivity.
  - vm_compute. reflexivity.
Defined.

(** X2.  The [with] block of [create_csv_fallback] closes the file on
    every path: in every run of the function, and of [main], the file is
    closed once if [open] returned and not at all otherwise.  A write that
    fails is followed by the closing of the file and by nothing else, and
    the run ends with the failure of the write, or with that of the
    closing when it fails too. *)
Theorem csv_file_is_closed env st :
  let evs := events_since st (create_test_xlsx.create_csv_fallback env st).2 in
  let evs_main := events_since st (create_test_xlsx.main env st).2 in
  calls_to file_close evs = succeeded builtin_open evs ∧
  calls_to file_close evs_main = succeeded builtin_open evs_main ∧
  (∀ pre f post, evs = pre ++ Raised file_write f :: post →
     post = [Called file_close] ∧
       (create_test_xlsx.create_csv_fallback env st).1 = Raise (Failure f) ∨
     ∃ f', post = [Raised file_close f'] ∧
       (create_test_xlsx.create_csv_fallback env st).1 = Raise (Failure f')) ∧
  (∀ pre f post, evs_main = pre ++ Raised file_write f :: post →
     post = [Called file_close] ∧
       (create_test_xlsx.main env st).1 = Raise (Failure f) ∨
     ∃ f', post = [Raised file_close f'] ∧
       (create_test_xlsx.main env st).1 = Raise (Failure f')).
Proof.
  intros evs evs_main.
  destruct (create_csv_fallback_runs env st) as [Hr _ _ Hc _ Hw _ _ _].
  destruct (main_reports env st) as [Hc' Hw' _ _ _ _].
  destruct (main_runs env st) as [Hr' _ _ _].
  fold evs in Hr, Hc, Hw. fold evs_main in Hr', Hc', Hw'.
  split_and!; [exact Hc|exact Hc'| |].
  - intros pre f post E. rewrite E in Hr, Hw.
    apply closes_after_failed_write_post in Hw as [->|[f' ->]]; [left|right; exists f'];
      (split; [done|]); rewrite Hr, last_failure_app; reflexivity.
  - intros pre f post E. rewrite E in Hr', Hw'.
    apply closes_after_failed_write_post in Hw' as [->|[f' ->]]; [left|right; exists f'];
      (split; [done|]); rewrite Hr', last_failure_app; reflexivity.
Qed.

Lemma csv_file_is_closed_witness :
  [Called file_close] = [Called file_close] ∧
    (create_test_xlsx.create_csv_fallback disk_full stale_disk).1 = Raise (Failure OSError) ∨
  ∃ f', [Called file_close] = [Raised file_close f'] ∧
    (create_test_xlsx.create_csv_fallback disk_full stale_disk).1 = Raise (Failure f').
Proof.
  refine (proj1 (proj2 (proj2 (csv_file_is_closed disk_full stale_disk)))
            [Called builtin_open; Wrote "/tmp/test_data.csv";
             Called file_write; Wrote "/tmp/test_data.csv";
             Called file_write; Wrote "/tmp/test_data.csv"]
            OSError [Called file_close] _).
  vm_compute. reflexivity.
Defined.

(** X3.  What [main] prints is true, in every run, failed or not.  The
    first line printed is the banner.  The line that reports the workbook
    made with openpyxl is printed only when openpyxl imported and
    test_data.xlsx holds the two-sheet workbook; the line for xlsxwriter,
    only when openpyxl did not import, xlsxwriter did and the file holds
    it; the line for the CSV, only when neither imported and test_data.csv
    holds the whole table. *)
Theorem printed_reports_are_true env st :
  let st' := (create_test_xlsx.main env st).2 in
  let lines := printed_since st st' in
  (lines = [] ∨ head lines = Some "Creating test Excel file...") ∧
  ("✅ Created test_data.xlsx using openpyxl" ∈ lines →
     importable env "openpyxl" = true ∧
     fs st' !! xlsx_path env = Some (XlsxFile (now env) fixture_workbook)) ∧
  ("✅ Created test_data.xlsx using xlsxwriter" ∈ lines →
     importable env "openpyxl" = false ∧ importable env "xlsxwriter" = true ∧
     fs st' !! xlsx_path env = Some (XlsxFile (now env) fixture_workbook)) ∧
  ("✅ Created test_data.csv as fallback" ∈ lines →
     importable env "openpyxl" = false ∧ importable env "xlsxwriter" = false ∧
     fs st' !! csv_path env = Some (TextFile csv_text)).
Proof.
  intros st' lines.
  destruct (main_reports env st) as [_ _ Hb Ho Hx Hc].
  done.
Qed.

Lemma printed_reports_are_true_witness :
  importable (world [] (nth_call_fails 10 OSError)) "openpyxl" = false ∧
  importable (world [] (nth_call_fails 10 OSError)) "xlsxwriter" = false ∧
  fs (create_test_xlsx.main (world [] (nth_call_fails 10 OSError)) empty_disk).2
    !! "/home/user/project/test_data.csv" = Some (TextFile csv_text).
Proof.
  apply (proj2 (proj2 (proj2
           (printed_reports_are_true (world [] (nth_call_fails 10 OSError)) empty_disk)))).
  vm_compute. repeat constructor.
Defined.

(** X4.  The output of a run of [main] that returns is decided by which
    library imports: the banner, then the line for openpyxl when it
    imports, else the line for xlsxwriter when that imports, else the two
    lines of guidance and the two lines about the CSV. *)
Theorem completed_run_output env st st' :
  create_test_xlsx.main env st = (Ok tt, st') →
  printed_since st st' =
    "Creating test Excel file..." ::
    (if importable env "openpyxl" then ["✅ Created test_data.xlsx using openpyxl"]
     else if importable env "xlsxwriter" then ["✅ Created test_data.xlsx using xlsxwriter"]
     else ["❌ Neither openpyxl nor xlsxwriter available";
           "Install one of them: pip install openpyxl  or  pip install xlsxwriter";
           "✅ Created test_data.csv as fallback";
           "Note: You'll need a real Excel file to test the xlsx parser"]).
Proof.
  intros Hrun.
  destruct (main_Ok _ _ _ Hrun) as [Ha _ _ Hl|Ha Hb _ _ Hl|Ha Hb _ _ Hl];
    rewrite Hl, Ha, ?Hb; reflexivity.
Qed.

Lemma completed_run_output_witness :
  printed_since empty_disk
    (create_test_xlsx.main (world ["xlsxwriter"; "pandas"] no_faults) empty_disk).2
  = ["Creating test Excel file..."; "✅ Created test_data.xlsx using xlsxwriter"].
Proof.
  apply (completed_run_output (world ["xlsxwriter"; "pandas"] no_faults) empty_disk).
  vm_compute. reflexivity.
Defined.

(** X5.  A helper builds the workbook in memory and writes it with its
    last library call, [wb.save] for openpyxl and [workbook.close] for
    xlsxwriter, which it makes at most once.  In a run that does not reach
    that call the disk is left as it was.  When the call returned,
    test_data.xlsx holds the whole two-sheet workbook, and the helper
    returns True unless the [print] that follows fails. *)
Theorem workbook_written_whole env st :
  let o := create_test_xlsx.create_with_openpyxl env st in
  let x := create_test_xlsx.create_with_xlsxwriter env st in
  let evo := events_since st o.2 in
  let evx := events_since st x.2 in
  (calls_to openpyxl_save evo ≤ 1 ∧ calls_to xlsxwriter_close evx ≤ 1) ∧
  (calls_to openpyxl_save evo = 0 → fs o.2 = fs st) ∧
  (calls_to xlsxwriter_close evx = 0 → fs x.2 = fs st) ∧
  (succeeded openpyxl_save evo = 1 →
     fs o.2 = <[xlsx_path env := XlsxFile (now env) fixture_workbook]> (fs st) ∧
     (o.1 = Ok true ∨
      ∃ f, o.1 = Raise (Failure f) ∧ last evo = Some (Raised builtin_print f))) ∧
  (succeeded xlsxwriter_close evx = 1 →
     fs x.2 = <[xlsx_path env := XlsxFile (now env) fixture_workbook]> (fs st) ∧
     (x.1 = Ok true ∨
      ∃ f, x.1 = Raise (Failure f) ∧ last evx = Some (Raised builtin_print f))).
Proof.
  intros o x evo evx.
  destruct (create_with_openpyxl_every_run env st) as [_ Hso Hbo Hao].
  destruct (create_with_xlsxwriter_every_run env st) as [_ Hsx Hbx Hax].
  fold o evo in Hso, Hbo, Hao. fold x evx in Hsx, Hbx, Hax.
  split_and!; [exact Hso|exact Hsx|..].
  - intros H0. by destruct (Hbo H0).
  - intros H0. by destruct (Hbx H0).
  - intros H1. destruct Hao as (Hfs & _ & [[Hr _]|(f & Hr & Hl & _)]); [lia|eauto..].
  - intros H1. destruct Hax as (Hfs & _ & [[Hr _]|(f & Hr & Hl & _)]); [lia|eauto..].
Qed.

Lemma workbook_written_whole_witness :
  fs (create_test_xlsx.create_with_openpyxl
        (world ["openpyxl"] (nth_call_fails 13 OSError)) empty_disk).2
    = <[ "/home/user/project/test_data.xlsx" := XlsxFile 1700000000 fixture_workbook ]> ∅ ∧
  ((create_test_xlsx.create_with_openpyxl
      (world ["openpyxl"] (nth_call_fails 13 OSError)) empty_disk).1 = Ok true ∨
   ∃ f, (create_test_xlsx.create_with_openpyxl
           (world ["openpyxl"] (nth_call_fails 13 OSError)) empty_disk).1
        = Raise (Failure f) ∧
        last (events_since empty_disk
                (create_test_xlsx.create_with_openpyxl
                   (world ["openpyxl"] (nth_call_fails 13 OSError)) empty_disk).2)
        = Some (Raised builtin_print f)).
Proof.
  apply (proj1 (proj2 (proj2 (proj2
           (workbook_written_whole (world ["openpyxl"] (nth_call_fails 13 OSError))
              empty_disk))))).
  vm_compute. reflexivity.
Defined.

(** X6.  What the dataframe script prints is true, in every run: it
    prints nothing but its four report lines, in order; it prints the
    first of them only when pandas and openpyxl imported and test_data.xlsx
    holds the three-sheet workbook; and a run that returns has printed all
    four. *)
Theorem dataframe_report_is_true env st :
  let r := (test_data.script env st).1 in
  let st' := (test_data.script env st).2 in
  let lines := printed_since st st' in
  lines `prefix_of` dataframe_report ∧
  (lines ≠ [] →
     importable env "pandas" = true ∧ importable env "openpyxl" = true ∧
     fs st' !! xlsx_path env = Some (XlsxFile (now env) dataframe_workbook)) ∧
  (r = Ok tt → lines = dataframe_report).
Proof.
  intros r st' lines.
  destruct (script_every_run env st) as [_ _ _ _ _ Hl Hr Hd].
  done.
Qed.

Lemma dataframe_report_is_true_witness :
  importable (world ["pandas"; "openpyxl"] (nth_call_fails 9 OSError)) "pandas" = true ∧
  importable (world ["pandas"; "openpyxl"] (nth_call_fails 9 OSError)) "openpyxl" = true ∧
  fs (test_data.script (world ["pandas"; "openpyxl"] (nth_call_fails 9 OSError)) empty_disk).2
    !! "/home/user/project/test_data.xlsx"
  = Some (XlsxFile 1700000000 dataframe_workbook).
Proof.
  apply (proj1 (proj2
           (dataframe_report_is_true
              (world ["pandas"; "openpyxl"] (nth_call_fails 9 OSError)) empty_disk))).
  vm_compute. intros H. discriminate H.
Defined.

(** X7.  The dataframe script handles no exception.  A module that does
    not import (pandas at the top of the file, openpyxl when the writer is
    made) ends the run at that point with an uncaught ImportError: the
    disk is as it was and nothing is printed.  A call that fails ends the
    run with an uncaught failure, that of the call when it is the last
    event; after it no module is imported and no call is made but the one
    that leaves the [with] block.  The run returns exactly when no import
    and no call failed. *)
Theorem dataframe_failures_propagate env st :
  let r := (test_data.script env st).1 in
  let st' := (test_data.script env st).2 in
  let evs := events_since st st' in
  (∀ m, import_failure evs = Some m →
        (∃ e, r = Raise e ∧ isinstance_ImportError e = true) ∧
        last evs = Some (ImportFailed m) ∧
        fs st' = fs st ∧ printed_since st st' = []) ∧
  (∀ pre a f post, evs = pre ++ Raised a f :: post →
        (∃ f', r = Raise (Failure f')) ∧
        (post = [] → r = Raise (Failure f)) ∧
        attempts post = [] ∧
        (∀ b, b ≠ pandas_ExcelWriter_exit → calls_to b post = 0)) ∧
  (r = Ok tt ↔ import_failure evs = None ∧ last_failure evs = None).
Proof.
  intros r st' evs.
  destruct (script_every_run env st) as [Hr Hi Hs _ _ _ _ _].
  fold r st' evs in Hr, Hi, Hs.
  split_and!.
  - intros m Hm. destruct (Hi m Hm) as (Hl & _ & _ & Hp & Hf).
    rewrite Hm in Hr. split_and!; eauto.
  - intros pre a f post E.
    assert (import_failure evs = None) as Hn.
    { destruct (import_failure evs) as [m|] eqn:Hm; [|done].
      destruct (Hi m eq_refl) as (_ & Hlf & _).
      rewrite E in Hlf. by destruct (last_failure_raised pre a f post) as [? ?]; congruence. }
    rewrite Hn in Hr. rewrite E in Hr, Hs.
    apply stops_at_failure_but_post in Hs.
    destruct (writer_exit_only _ Hs) as [Ha Hc].
    split_and!; [|intros ->; by rewrite last_failure_last in Hr|done|done].
    destruct (last_failure_raised pre a f post) as [f' Hf'].
    rewrite Hf' in Hr. eauto.
  - split.
    + intros Hok. rewrite Hok in Hr.
      destruct (import_failure evs); [discriminate|].
      by destruct (last_failure evs).
    + intros [Hn Hf]. by rewrite Hn, Hf in Hr.
Qed.

Lemma dataframe_failures_propagate_witness :
  (∃ e, (test_data.script (world ["pandas"] no_faults) empty_disk).1 = Raise e ∧
        isinstance_ImportError e = true) ∧
  last (events_since empty_disk (test_data.script (world ["pandas"] no_faults) empty_disk).2)
    = Some (ImportFailed "openpyxl") ∧
  fs (test_data.script (world ["pandas"] no_faults) empty_disk).2 = fs empty_disk ∧
  printed_since empty_disk (test_data.script (world ["pandas"] no_faults) empty_disk).2 = [].
Proof.
  apply (proj1 (dataframe_failures_propagate (world ["pandas"] no_faults) empty_disk)
           "openpyxl").
  vm_compute. reflexivity.
Defined.



(** X9.  The two scripts agree on the tables they share: the workbook
    of the fallback-chain script holds, cell for cell, the first two sheets
    of the workbook of the dataframe script (rows appended one by one on
    one side, columns of a frame on the other); the first sheet is named
    "Sheet1" in the one and "Employees" in the other, and only the
    dataframe script has the sheet "Sales". *)
Theorem scripts_share_tables env1 st1 st1' env2 st2 st2' :
  importable env1 "openpyxl" = true ∨ importable env1 "xlsxwriter" = true →
  create_test_xlsx.main env1 st1 = (Ok tt, st1') →
  test_data.script env2 st2 = (Ok tt, st2') →
  ∃ b1 b2,
    fs st1' !! xlsx_path env1 = Some (XlsxFile (now env1) b1) ∧
    fs st2' !! xlsx_path env2 = Some (XlsxFile (now env2) b2) ∧
    sheet_cells <$> b1 = take 2 (sheet_cells <$> b2) ∧
    sheet_name <$> b1 = ["Sheet1"; "Products"] ∧
    sheet_name <$> b2 = ["Employees"; "Products"; "Sales"].
Proof.
  intros Himp Hrun1 Hrun2.
  destruct (script_Ok _ _ _ Hrun2) as (_ & _ & Hfs2 & _).
  exists fixture_workbook, dataframe_workbook.
  rewrite Hfs2, lookup_insert_eq.
  destruct (main_Ok _ _ _ Hrun1) as [_ Hfs1 _ _|_ _ Hfs1 _ _|Ha Hb _ _ _].
  - by rewrite Hfs1, lookup_insert_eq.
  - by rewrite Hfs1, lookup_insert_eq.
  - destruct Himp; congruence.
Qed.

Lemma scripts_share_tables_witness :
  ∃ b1 b2,
    fs (create_test_xlsx.main elsewhere_xlsxwriter stale_disk).2 !! "/tmp/test_data.xlsx"
      = Some (XlsxFile 1800000000 b1) ∧
    fs (test_data.script (world ["pandas"; "openpyxl"] no_faults) empty_disk).2
      !! "/home/user/project/test_data.xlsx" = Some (XlsxFile 1700000000 b2) ∧
    sheet_cells <$> b1 = take 2 (sheet_cells <$> b2) ∧
    sheet_name <$> b1 = ["Sheet1"; "Products"] ∧
    sheet_name <$> b2 = ["Employees"; "Products"; "Sales"].
Proof.
  apply (scripts_share_tables elsewhere_xlsxwriter stale_disk
           (create_test_xlsx.main elsewhere_xlsxwriter stale_disk).2
           (world ["pandas"; "openpyxl"] no_faults) empty_disk
           (test_data.script (world ["pandas"; "openpyxl"] no_faults) empty_disk).2).
  - right. reflexivity.
  - vm_compute. reflexivity.
  - vm_compute. reflexivity.
Defined.

(** X10.  The CSV fallback holds the first sheet of the workbook and
    nothing of the second: the text written to test_data.csv is the header
    and the rows of the sheet "Sheet1" that the library branches write,
    each row with its fields joined by commas and ended by a newline, the
    numbers as decimal integers; the sheet "Products" has no
    counterpart. *)
Theorem csv_holds_first_sheet env1 st1 st1' env2 st2 st2' :
  importable env1 "openpyxl" = true ∨ importable env1 "xlsxwriter" = true →
  create_test_xlsx.main env1 st1 = (Ok tt, st1') →
  importable env2 "openpyxl" = false → importable env2 "xlsxwriter" = false →
  create_test_xlsx.main env2 st2 = (Ok tt, st2') →
  ∃ header rows others text,
    fs st1' !! xlsx_path env1
      = Some (XlsxFile (now env1) (table "Sheet1" header rows :: others)) ∧
    fs st2' !! csv_path env2 = Some (TextFile text) ∧
    csv_of_table header rows = Some text ∧
    sheet_name <$> others = ["Products"].
Proof.
  intros Himp Hrun1 Ha2 Hb2 Hrun2.
  exists ["Name"; "Age"; "City"; "Salary"], employee_rows,
    [table "Products" ["Product"; "Price"; "Stock"] product_rows], csv_text.
  assert (fs st1' !! xlsx_path env1 = Some (XlsxFile (now env1) fixture_workbook)) as Hx.
  { destruct (main_Ok _ _ _ Hrun1) as [_ Hfs _ _|_ _ Hfs _ _|Ha Hb _ _ _].
    - rewrite Hfs. apply lookup_insert_eq.
    - rewrite Hfs. apply lookup_insert_eq.
    - destruct Himp; congruence. }
  assert (fs st2' !! csv_path env2 = Some (TextFile csv_text)) as Hc.
  { destruct (main_Ok _ _ _ Hrun2) as [Ha _ _ _|_ Hb _ _ _|_ _ Hfs _ _]; [congruence..|].
    rewrite Hfs. apply lookup_insert_eq. }
  split_and!; [exact Hx|exact Hc| |reflexivity].
  vm_compute. reflexivity.
Qed.

Lemma csv_holds_first_sheet_witness :
  ∃ header rows others text,
    fs (create_test_xlsx.main (world ["openpyxl"] no_faults) empty_disk).2
      !! "/home/user/project/test_data.xlsx"
      = Some (XlsxFile 1700000000 (table "Sheet1" header rows :: others)) ∧
    fs (create_test_xlsx.main elsewhere stale_disk).2 !! "/tmp/test_data.csv"
      = Some (TextFile text) ∧
    csv_of_table header rows = Some text ∧
    sheet_name <$> others = ["Products"].
Proof.
  apply (csv_holds_first_sheet (world ["openpyxl"] no_faults) empty_disk
           (create_test_xlsx.main (world ["openpyxl"] no_faults) empty_disk).2
           elsewhere stale_disk (create_test_xlsx.main elsewhere stale_disk).2).
  - left. reflexivity.
  - vm_compute. reflexivity.
  - reflexivity.
  - reflexivity.
  - vm_compute. reflexivity.
Defined.

(** X11.  The two scripts write the same file: run one after the other in
    one directory, the second replaces the workbook of the first.  After
    the fallback-chain script and then the dataframe script test_data.xlsx
    holds the three-sheet workbook; after the dataframe script and then
    the fallback-chain script (which then uses openpyxl, since the
    dataframe script needed it) it holds the two-sheet workbook.  No other
    file is touched, and no CSV is written. *)
Theorem scripts_share_output_path env st st1 st2 :
  (create_test_xlsx.main env st = (Ok tt, st1) →
   test_data.script env st1 = (Ok tt, st2) →
   fs st1 !! xlsx_path env = Some (XlsxFile (now env) fixture_workbook) ∧
   fs st2 !! xlsx_path env = Some (XlsxFile (now env) dataframe_workbook) ∧
   ∀ p, p ≠ xlsx_path env → fs st2 !! p = fs st !! p) ∧
  (test_data.script env st = (Ok tt, st1) →
   create_test_xlsx.main env st1 = (Ok tt, st2) →
   fs st1 !! xlsx_path env = Some (XlsxFile (now env) dataframe_workbook) ∧
   fs st2 !! xlsx_path env = Some (XlsxFile (now env) fixture_workbook) ∧
   ∀ p, p ≠ xlsx_path env → fs st2 !! p = fs st !! p).
Proof.
  split.
  - intros Hrun1 Hrun2.
    destruct (script_Ok _ _ _ Hrun2) as (_ & Ho & Hfs2 & _).
    destruct (main_Ok _ _ _ Hrun1) as [_ Hfs1 _ _|Ha _ _ _ _|Ha _ _ _ _]; [|congruence..].
    rewrite Hfs2, Hfs1. split_and!.
    + apply lookup_insert_eq.
    + apply lookup_insert_eq.
    + intros p Hp. by rewrite !lookup_insert_ne.
  - intros Hrun1 Hrun2.
    destruct (script_Ok _ _ _ Hrun1) as (_ & Ho & Hfs1 & _).
    destruct (main_Ok _ _ _ Hrun2) as [_ Hfs2 _ _|Ha _ _ _ _|Ha _ _ _ _]; [|congruence..].
    rewrite Hfs2, Hfs1. split_and!.
    + apply lookup_insert_eq.
    + apply lookup_insert_eq.
    + intros p Hp. by rewrite !lookup_insert_ne.
Qed.

Lemma scripts_share_output_path_witness :
  fs (create_test_xlsx.main (world ["pandas"; "openpyxl"] no_faults)
        (test_data.script (world ["pandas"; "openpyxl"] no_faults) empty_disk).2).2
    !! "/home/user/project/test_data.xlsx"
  = Some (XlsxFile 1700000000 fixture_workbook).
Proof.
  refine (proj1 (proj2 (proj2 (scripts_share_output_path
            (world ["pandas"; "openpyxl"] no_faults) empty_disk
            (test_data.script (world ["pandas"; "openpyxl"] no_faults) empty_disk).2
            (create_test_xlsx.main (world ["pandas"; "openpyxl"] no_faults)
               (test_data.script (world ["pandas"; "openpyxl"] no_faults) empty_disk).2).2)
            _ _))).
  - vm_compute. reflexivity.
  - vm_compute. reflexivity.
Defined.

(** X12.  A script looks at no module but its own: the run of the
    fallback-chain script is the same in two worlds that agree on openpyxl
    and xlsxwriter, whatever else is installed, and that of the dataframe
    script in two worlds that agree on pandas and openpyxl; the xlsxwriter
    helper looks at xlsxwriter only and the CSV fallback at no module.
    Where openpyxl imports, [main] does not look at xlsxwriter either. *)
Theorem other_modules_do_not_matter :
  looks_only_at ["openpyxl"; "xlsxwriter"] create_test_xlsx.main ∧
  looks_only_at ["pandas"; "openpyxl"] test_data.script ∧
  looks_only_at ["xlsxwriter"] create_test_xlsx.create_with_xlsxwriter ∧
  looks_only_at [] create_test_xlsx.create_csv_fallback ∧
  (∀ env1 env2 st,
     same_world_for ["openpyxl"] env1 env2 → importable env1 "openpyxl" = true →
     create_test_xlsx.main env1 st = create_test_xlsx.main env2 st).
Proof.
  split_and!.
  - unfold_main. repeat looks_only_at_step.
  - unfold_script. repeat looks_only_at_step.
  - unfold create_test_xlsx.create_with_xlsxwriter. repeat looks_only_at_step.
  - unfold create_test_xlsx.create_csv_fallback. repeat looks_only_at_step.
  - intros env1 env2 st Hw Himp.
    assert (importable env2 "openpyxl" = true) as Himp2.
    { destruct Hw as [Hi _]. rewrite <- Hi; [done|]. constructor. }
    unfold create_test_xlsx.main, mbind, Py_bind, bind, print.
    rewrite (looks_only_at_call ["openpyxl"] builtin_print _ tt env1 env2 st Hw).
    destruct (call builtin_print _ tt env2 st) as [[[]|e] st0]; [|done].
    rewrite (create_with_openpyxl_looks_only_at env1 env2 st0 Hw).
    pose proof (create_with_openpyxl_runs env2 st0) as Hrun.
    destruct (create_test_xlsx.create_with_openpyxl env2 st0) as [[[]|e] st1];
      simpl in *; [done| |done].
    inversion Hrun; congruence.
Qed.

Lemma other_modules_do_not_matter_witness :
  create_test_xlsx.main (world ["openpyxl"] no_faults) empty_disk
  = create_test_xlsx.main (world ["pandas"; "xlsxwriter"; "openpyxl"] no_faults) empty_disk.
Proof.
  apply (proj2 (proj2 (proj2 (proj2 other_modules_do_not_matter)))).
  - split_and!; [|done..].
    intros m Hm. apply list_elem_of_singleton in Hm as ->. reflexivity.
  - reflexivity.
Defined.
